(** * prana_rc: the BLE driver of service.py, embedded and verified

    The development follows [src/service.py]:
    - Python values the driver handles ([str] as a sequence of code points,
      [bytes]/[bytearray] as a list of bytes, exceptions, [None]);
    - the two classes, [PranaDevice] (one session per address) and
      [PranaDeviceManager] (the registry), as state-passing programs over
      the Python heap, with every call into [bleak] and [asyncio] answered
      by an arbitrary environment and recorded in a trace;
    - the properties of the driver, proved for every environment. *)

From Stdlib Require Import Strings.String Strings.Ascii.
From Stdlib Require Import ZArith NArith List Bool Lia.
From Stdlib Require Floats Uint63.
From Stdlib.Strings Require Import Byte.
Import ListNotations.

Set Implicit Arguments.
Open Scope Z_scope.

(** ** Exceptions and fallible results *)

(** The exceptions the driver itself raises ([IndexError] and [TypeError]
    from indexing, [ValueError] and [RuntimeError] by [raise],
    [OverflowError] from [int]), and whatever the
    collaborators raise ([bleak]'s errors, timeouts), kept by name. *)
Inductive exn : Type :=
| IndexError
| TypeError
| ValueError (msg : string)
| RuntimeError (msg : string)
| OverflowError
| ExternalError (name : string).

Inductive outcome (A : Type) : Type :=
| Ok (a : A)
| Raised (e : exn).
Arguments Ok {A} a.
Arguments Raised {A} e.

Definition obind {A B : Type} (o : outcome A) (f : A -> outcome B) : outcome B :=
  match o with
  | Ok a => f a
  | Raised e => Raised e
  end.

Notation "'let*' x ':=' o 'in' k" := (obind o (fun x => k))
  (at level 10, x name, o at level 100, k at level 200).

(** ** Python [str] *)

(** A [str] is a sequence of Unicode code points. *)
Definition py_str : Type := list N.

Definition lit (s : string) : py_str :=
  List.map N_of_ascii (list_ascii_of_string s).

Definition py_str_eq_dec : forall a b : py_str, {a = b} + {a <> b} :=
  list_eq_dec N.eq_dec.

Module PyStr.

(** [str.isspace] on one code point: the characters [str.strip()] removes. *)
Definition is_whitespace (c : N) : bool :=
  ((0x09 <=? c) && (c <=? 0x0D) || (0x1C <=? c) && (c <=? 0x20)
   || (c =? 0x85) || (c =? 0xA0) || (c =? 0x1680)
   || (0x2000 <=? c) && (c <=? 0x200A)
   || (c =? 0x2028) || (c =? 0x2029) || (c =? 0x202F)
   || (c =? 0x205F) || (c =? 0x3000))%N.

Fixpoint startswith (s prefix : py_str) {struct prefix} : bool :=
  match prefix, s with
  | [], _ => true
  | p :: prefix', c :: s' => (c =? p)%N && startswith s' prefix'
  | _ :: _, [] => false
  end.

Fixpoint lstrip (s : py_str) : py_str :=
  match s with
  | [] => []
  | c :: s' => if is_whitespace c then lstrip s' else s
  end.

Definition rstrip (s : py_str) : py_str := rev (lstrip (rev s)).

Definition strip (s : py_str) : py_str := rstrip (lstrip s).

(** [s.replace(old, new)] for a non-empty [old]: the scan goes left to
    right; where [old] starts it emits [new] and steps over the
    occurrence ([skip] counts the characters of it still to pass), so
    the occurrences replaced do not overlap. *)
Fixpoint replace_scan (old new s : py_str) (skip : nat) : py_str :=
  match s with
  | [] => []
  | c :: s' =>
      match skip with
      | S k => replace_scan old new s' k
      | O =>
          if startswith s old
          then new ++ replace_scan old new s' (Nat.pred (length old))
          else c :: replace_scan old new s' 0
      end
  end.

(** With an empty [old], Python puts [new] before every character and
    at the end. *)
Definition replace (s old new : py_str) : py_str :=
  match old with
  | [] => new ++ flat_map (fun c => c :: new) s
  | _ :: _ => replace_scan old new s 0
  end.

End PyStr.

(** Truth value of an optional string: [None] and [''] are falsy. *)
Definition str_truthy (s : option py_str) : bool :=
  match s with
  | None | Some [] => false
  | Some (_ :: _) => true
  end.

(** ** Python [bytes] and numbers *)

Definition bytes : Type := list byte.

Definition byte_val (b : byte) : Z := Z.of_N (Byte.to_N b).

(** [data[i]] for [i >= 0]: the byte as an [int], [IndexError] out of range. *)
Definition getitem (data : bytes) (i : nat) : outcome Z :=
  match nth_error data i with
  | Some b => Ok (byte_val b)
  | None => Raised IndexError
  end.

Definition bytes_eqb (a b : bytes) : bool :=
  if list_eq_dec Byte.byte_eq_dec a b then true else false.

(** [a / b] on ints is true division, a binary64 float. Both operands
    are converted exactly here (a byte value and the constant 10). *)
Definition int_truediv (a b : Z) : PrimFloat.float :=
  PrimFloat.div (PrimFloat.of_uint63 (Uint63.of_Z a))
                (PrimFloat.of_uint63 (Uint63.of_Z b)).

(** [int(f)]: truncation toward zero; infinities and NaN raise. *)
Definition int_of_float (f : PrimFloat.float) : outcome Z :=
  match FloatOps.Prim2SF f with
  | SpecFloat.S754_zero _ => Ok 0
  | SpecFloat.S754_finite s m e =>
      let mag := if 0 <=? e then Z.shiftl (Z.pos m) e
                 else Z.shiftr (Z.pos m) (- e) in
      Ok (if s then - mag else mag)
  | SpecFloat.S754_infinity _ => Raised OverflowError
  | SpecFloat.S754_nan => Raised (ValueError "cannot convert float NaN to integer")
  end.

(** The float literal of the source, the binary64 value nearest to 0.6. *)
Module FloatLiterals.
Import PrimFloat.
#[warnings="-inexact-float"]
Definition zero_point_six : float := 0.6%float.
End FloatLiterals.

(** [bool(n)] on an int. *)
Definition int_truthy (n : Z) : bool := negb (n =? 0).

(** A number passed through to a collaborator (timeouts). *)
Inductive pynum : Type :=
| PyInt (z : Z)
| PyFloat (f : PrimFloat.float).

(** ** The records of [entity] and of [bleak] *)

(** Modelled from the spec: [entity.PranaState] is imported by service.py
    and its declaration is not in the source tree; the record has the
    attributes [__parse_state] assigns (the spec's DeviceState: eight
    booleans and three speeds). *)
Record PranaState : Type := {
  speed_locked : Z;
  speed_in : Z;
  speed_out : Z;
  auto_mode : bool;
  night_mode : bool;
  flows_locked : bool;
  is_on : bool;
  mini_heating_enabled : bool;
  winter_mode_enabled : bool;
  is_input_fan_on : bool;
  is_output_fan_on : bool
}.

(** Modelled from the spec: [entity.PranaDeviceInfo] is imported by
    service.py and its declaration is not in the source tree; the record
    has the four keyword arguments [discover] builds it from (the spec's
    DeviceIdentity). *)
Record PranaDeviceInfo : Type := {
  address : py_str;
  bt_device_name : py_str;
  name : option py_str;
  rssi : Z
}.

(** What [bleak.discover] yields for one advertisement. *)
Record BLEDevice : Type := {
  dev_address : py_str;
  dev_name : option py_str;
  dev_rssi : Z
}.

(** An event loop is opaque to the driver. *)
Definition event_loop : Type := nat.

(** A [bleak.BleakClient] object: its identity and what it was built from. *)
Record BleakClient : Type := {
  bc_id : nat;
  bc_address : py_str;
  bc_loop : option event_loop;
  bc_device : py_str
}.

(** ** Dictionaries *)

(** A Python [dict] keeps its keys in insertion order, and
    [disconnect_all] walks it in that order: an association list with
    each key at most once. *)
Section Dict.
Variable V : Type.

Definition dict : Type := list (py_str * V).

Fixpoint dict_get (d : dict) (k : py_str) : option V :=
  match d with
  | [] => None
  | (k', v) :: d' => if py_str_eq_dec k k' then Some v else dict_get d' k
  end.

(** [d[k] = v]: the value of an existing key is replaced where it stands,
    a new key goes last. *)
Fixpoint dict_set (d : dict) (k : py_str) (v : V) : dict :=
  match d with
  | [] => [(k, v)]
  | (k', v') :: d' =>
      if py_str_eq_dec k k' then (k', v) :: d' else (k', v') :: dict_set d' k v
  end.

Definition dict_keys (d : dict) : list py_str := List.map fst d.
Definition dict_values (d : dict) : list V := List.map snd d.
End Dict.

(** ** The heap and the world outside *)

(** A reference to a [PranaDevice] object: its index in the heap. *)
Abbreviation ref := nat (only parsing).

(** The attributes of a [PranaDevice] ([__address], [__client],
    [__has_connect_attempts]). *)
Record PranaDevice_obj : Type := {
  pd_address : py_str;
  pd_client : BleakClient;
  has_connect_attempts : bool
}.

(** The attributes of the [PranaDeviceManager] ([__ble_interface],
    [__loop], [__managed_devices]). *)
Record PranaDeviceManager_obj : Type := {
  ble_interface : py_str;
  loop : option event_loop;
  managed_devices : dict ref
}.

(** Every await on a collaborator: [bleak.discover], the methods of a
    [BleakClient], [asyncio.sleep]. The handler given to [start_notify] is
    the bound method [notification_handler] of the session [handler]. *)
Inductive call : Type :=
| bleak_discover (timeout : pynum) (l : option event_loop)
| client_connect (c : BleakClient) (timeout : pynum)
| client_disconnect (c : BleakClient)
| client_is_connected (c : BleakClient)
| client_start_notify (c : BleakClient) (uuid : string) (handler : ref)
| client_write_gatt_char (c : BleakClient) (uuid : string) (data : bytes) (response : bool)
| client_read_gatt_char (c : BleakClient) (uuid : string) (use_cached : bool)
| asyncio_sleep (seconds : PrimFloat.float).

Definition reply_ty (c : call) : Type :=
  match c with
  | bleak_discover _ _ => list BLEDevice
  | client_is_connected _ => bool
  | client_read_gatt_char _ _ _ => bytes
  | _ => unit
  end.

(** The collaborators are not part of the driver: an environment answers
    each call, with a value or by raising, from a state of its own. *)
Class Environment : Type := {
  env_state : Type;
  respond : forall c : call, env_state -> outcome (reply_ty c) * env_state
}.

(** What [print] wrote. *)
Inductive printed : Type :=
| PrintBytes (data : bytes)
| PrintState (s : option PranaState).

Section Runtime.
Context {ENV : Environment}.

(** The heap of sessions, the one registry, standard output, the
    environment, and the calls made so far (oldest first). *)
Record world : Type := {
  devices : list PranaDevice_obj;
  manager : PranaDeviceManager_obj;
  stdout : list printed;
  env : env_state;
  trace : list call
}.

(** A method body: it runs from a world to a result or an exception,
    and the world it leaves. *)
Definition M (A : Type) : Type := world -> outcome A * world.

Definition ret {A : Type} (a : A) : M A := fun w => (Ok a, w).

Definition raise {A : Type} (e : exn) : M A := fun w => (Raised e, w).

Definition bind {A B : Type} (m : M A) (f : A -> M B) : M B :=
  fun w =>
    match m w with
    | (Ok a, w') => f a w'
    | (Raised e, w') => (Raised e, w')
    end.

Definition lift {A : Type} (o : outcome A) : M A := fun w => (o, w).

(** [await] on a collaborator. *)
Definition await (c : call) : M (reply_ty c) :=
  fun w =>
    let (o, e') := respond c (env w) in
    (o, {| devices := devices w; manager := manager w; stdout := stdout w;
           env := e'; trace := trace w ++ [c] |}).

Definition print (p : printed) : M unit :=
  fun w =>
    (Ok tt, {| devices := devices w; manager := manager w;
               stdout := stdout w ++ [p]; env := env w; trace := trace w |}).

Definition set_devices (ds : list PranaDevice_obj) : M unit :=
  fun w =>
    (Ok tt, {| devices := ds; manager := manager w; stdout := stdout w;
               env := env w; trace := trace w |}).

Definition set_manager (m : PranaDeviceManager_obj) : M unit :=
  fun w =>
    (Ok tt, {| devices := devices w; manager := m; stdout := stdout w;
               env := env w; trace := trace w |}).

Definition get_devices : M (list PranaDevice_obj) := fun w => (Ok (devices w), w).

Definition get_manager : M PranaDeviceManager_obj := fun w => (Ok (manager w), w).

(** Reading an object through a reference. Python has no dangling
    reference; one that is not in the heap is an error of the caller. *)
Definition deref (self : ref) : M PranaDevice_obj :=
  fun w =>
    match nth_error (devices w) self with
    | Some d => (Ok d, w)
    | None => (Raised (ExternalError "no such object"), w)
    end.

Fixpoint list_update {A : Type} (l : list A) (i : nat) (x : A) : list A :=
  match l, i with
  | [], _ => []
  | _ :: l', O => x :: l'
  | y :: l', S i' => y :: list_update l' i' x
  end.

(** A new object goes at the end of the heap; its index is its reference. *)
Definition alloc (mk : ref -> PranaDevice_obj) : M ref :=
  fun w =>
    let r := length (devices w) in
    (Ok r, {| devices := devices w ++ [mk r]; manager := manager w;
              stdout := stdout w; env := env w; trace := trace w |}).

End Runtime.

Notation "x <- m ;; k" := (bind m (fun x => k))
  (at level 61, m at next level, right associativity).
Notation "m ;; k" := (bind m (fun _ => k))
  (at level 61, right associativity).

(** What [connect] and the constructor accept as [target]:
    [Union[str, PranaDeviceInfo]], or, Python being untyped, anything else. *)
Inductive target : Type :=
| TargetStr (s : py_str)
| TargetInfo (i : PranaDeviceInfo)
| TargetOther.

(** ** class PranaDevice *)

Module PranaDevice.

Definition CONTROL_SERVICE_UUID : string := "0000baba-0000-1000-8000-00805f9b34fb".
Definition CONTROL_RW_CHARACTERISTIC_UUID : string := "0000cccc-0000-1000-8000-00805f9b34fb".
Definition STATE_MSG_PREFIX : bytes := [xbe; xef].

Module Cmd.
Definition ENABLE_HIGH_SPEED : bytes := [xbe; xef; x04; x07].
Definition ENABLE_NIGHT_MODE : bytes := [xbe; xef; x04; x06].
Definition TOGGLE_FLOW_LOCK : bytes := [xbe; xef; x04; x09].
Definition TOGGLE_HEATING : bytes := [xbe; xef; x04; x05].
Definition TOGGLE_WINTER_MODE : bytes := [xbe; xef; x04; x16].
Definition SPEED_UP : bytes := [xbe; xef; x04; x0c].
Definition SPEED_DOWN : bytes := [xbe; xef; x04; x0b].
Definition SPEED_IN_UP : bytes := [xbe; xef; x04; x0e].
Definition SPEED_IN_DOWN : bytes := [xbe; xef; x04; x0f].
Definition SPEED_OUT_UP : bytes := [xbe; xef; x04; x11].
Definition SPEED_OUT_DOWN : bytes := [xbe; xef; x04; x12].
Definition FLOW_IN_OFF : bytes := [xbe; xef; x04; x0d].
Definition FLOW_OUT_OFF : bytes := [xbe; xef; x04; x10].
Definition STOP : bytes := [xbe; xef; x04; x01].
Definition READ_STATE : bytes := [xbe; xef; x05; x01; x00; x00; x00; x00; x5a].
Definition READ_DEVICE_DETAILS : bytes := [xbe; xef; x05; x02; x00; x00; x00; x00; x5a].
End Cmd.

(** The settle delay of [_send_command], the literal [0.6] (seconds). *)
Definition SETTLE_DELAY : PrimFloat.float := FloatLiterals.zero_point_six.

(** The assignments of [__parse_state] after the marker test, in the
    order of the source: the first index out of range raises, and the
    state under construction is lost with it. *)
Definition read_fields (data : bytes) : outcome PranaState :=
  let* b26 := getitem data 26 in
  let* v_speed_locked := int_of_float (int_truediv b26 10) in
  let* b30 := getitem data 30 in
  let* v_speed_in := int_of_float (int_truediv b30 10) in
  let* b34 := getitem data 34 in
  let* v_speed_out := int_of_float (int_truediv b34 10) in
  let* b20 := getitem data 20 in
  let* b16 := getitem data 16 in
  let* b22 := getitem data 22 in
  let* b10 := getitem data 10 in
  let* b14 := getitem data 14 in
  let* b42 := getitem data 42 in
  let* b28 := getitem data 28 in
  let* b32 := getitem data 32 in
  Ok {| speed_locked := v_speed_locked;
        speed_in := v_speed_in;
        speed_out := v_speed_out;
        auto_mode := int_truthy b20;
        night_mode := int_truthy b16;
        flows_locked := int_truthy b22;
        is_on := int_truthy b10;
        mini_heating_enabled := int_truthy b14;
        winter_mode_enabled := int_truthy b42;
        is_input_fan_on := int_truthy b28;
        is_output_fan_on := int_truthy b32 |}.

(** What [__verify_connected] raises. *)
Definition NOT_CONNECTED : exn :=
  RuntimeError "Illegal state: device must be connected before running any commands".

Section Methods.
Context {ENV : Environment}.

(** [__init__]: the address from the target, a client of its own,
    the flag clear. *)
Definition __init__ (tgt : target) (l : option event_loop) (iface : py_str) : M ref :=
  let create (addr : py_str) :=
    alloc (fun r =>
      {| pd_address := addr;
         pd_client := {| bc_id := r; bc_address := addr;
                         bc_loop := l; bc_device := iface |};
         has_connect_attempts := false |}) in
  match tgt with
  | TargetInfo i => create (address i)
  | TargetStr s => create s
  | TargetOther =>
      raise (ValueError
        "PranaDevice constructor error: Target must be eithermac address or PranaDeviceInfo instance")
  end.

Definition client_of (self : ref) : M BleakClient :=
  d <- deref self ;; ret (pd_client d).

Definition set_has_connect_attempts (self : ref) (b : bool) : M unit :=
  d <- deref self ;;
  ds <- get_devices ;;
  set_devices (list_update ds self
    {| pd_address := pd_address d; pd_client := pd_client d;
       has_connect_attempts := b |}).

Definition is_connected (self : ref) : M bool :=
  d <- deref self ;;
  if negb (has_connect_attempts d) then ret false
  else await (client_is_connected (pd_client d)).

Definition __verify_connected (self : ref) : M unit :=
  c <- is_connected self ;;
  if negb c then raise NOT_CONNECTED else ret tt.

Definition __parse_state (self : ref) (data : bytes) : M (option PranaState) :=
  if negb (bytes_eqb (firstn 2 data) STATE_MSG_PREFIX) then ret None
  else
    print (PrintBytes data) ;;
    s <- lift (read_fields data) ;;
    ret (Some s).

Definition notification_handler (self : ref) (sender : Z) (data : bytes) : M unit :=
  s <- __parse_state self data ;;
  print (PrintState s).

Definition connect (self : ref) (timeout : pynum) : M unit :=
  c <- client_of self ;;
  await (client_connect c timeout) ;;
  set_has_connect_attempts self true ;;
  c <- client_of self ;;
  await (client_start_notify c CONTROL_RW_CHARACTERISTIC_UUID self).

Definition disconnect (self : ref) : M unit :=
  c <- client_of self ;;
  await (client_disconnect c).

(** The result is the bytes read when [expect_reply], else [None]. *)
Definition _send_command (self : ref) (command : bytes) (expect_reply : bool)
  : M (option bytes) :=
  c <- client_of self ;;
  await (client_write_gatt_char c CONTROL_RW_CHARACTERISTIC_UUID command true) ;;
  await (asyncio_sleep SETTLE_DELAY) ;;
  c <- client_of self ;;
  result <- await (client_read_gatt_char c CONTROL_RW_CHARACTERISTIC_UUID false) ;;
  if expect_reply then ret (Some (result : bytes)) else ret None.

Definition set_high_speed (self : ref) : M unit :=
  __verify_connected self ;;
  _send_command self Cmd.ENABLE_HIGH_SPEED false ;;
  ret tt.

Definition set_night_mode (self : ref) : M unit :=
  __verify_connected self ;;
  _send_command self Cmd.ENABLE_NIGHT_MODE false ;;
  ret tt.

Definition turn_off (self : ref) : M unit :=
  __verify_connected self ;;
  _send_command self Cmd.STOP false ;;
  ret tt.

Definition read_state (self : ref) : M (option PranaState) :=
  __verify_connected self ;;
  state_bin <- _send_command self Cmd.READ_STATE true ;;
  match state_bin with
  | Some data => __parse_state self data
  | None => raise TypeError
  end.

End Methods.
End PranaDevice.

(** ** class PranaDeviceManager *)

Module PranaDeviceManager.

Definition PRANA_DEVICE_NAME_PREFIX : py_str := lit "PRNAQaq".

(** The value of [a and b] here: [dev.name] itself when it is falsy
    ([None] or ['']), else the boolean of [startswith]. *)
Inductive name_test : Type :=
| NameNone
| NameEmpty
| NameStartswith (b : bool).

Definition truthy (t : name_test) : bool :=
  match t with
  | NameNone | NameEmpty => false
  | NameStartswith b => b
  end.

Definition __is_prana_device (dev : BLEDevice) : name_test :=
  match dev_name dev with
  | None => NameNone
  | Some [] => NameEmpty
  | Some (c :: s) =>
      NameStartswith (PyStr.startswith (c :: s) PRANA_DEVICE_NAME_PREFIX)
  end.

Definition __prana_dev_name_2_name (dev_name : option py_str) : option py_str :=
  if str_truthy dev_name
  then option_map
         (fun s => PyStr.strip (PyStr.replace s PRANA_DEVICE_NAME_PREFIX []))
         dev_name
  else dev_name.

Definition __addr_for_target (tgt : target) : outcome py_str :=
  match tgt with
  | TargetInfo i => Ok (address i)
  | TargetStr s => Ok s
  | TargetOther =>
      Raised (ValueError
        "Device must be specified either by mac address or by PranaDeviceInfo instance")
  end.

(** [dev.name or ''] *)
Definition name_or_empty (n : option py_str) : py_str :=
  match n with
  | Some (c :: s) => c :: s
  | _ => []
  end.

(** The identity [discover] builds for one advertisement. *)
Definition device_info (dev : BLEDevice) : PranaDeviceInfo :=
  {| address := dev_address dev;
     bt_device_name := PyStr.strip (name_or_empty (dev_name dev));
     name := __prana_dev_name_2_name (dev_name dev);
     rssi := dev_rssi dev |}.

(** [list(map(..., filter(__is_prana_device, discovered_devs)))] *)
Definition select (discovered_devs : list BLEDevice) : list PranaDeviceInfo :=
  List.map device_info
    (List.filter (fun dev => truthy (__is_prana_device dev)) discovered_devs).

Section Methods.
Context {ENV : Environment}.

Definition discover (timeout : pynum) : M (list PranaDeviceInfo) :=
  self <- get_manager ;;
  discovered_devs <- await (bleak_discover timeout (loop self)) ;;
  ret (select discovered_devs).

Definition connect (tgt : target) (timeout : pynum) : M ref :=
  addr <- lift (__addr_for_target tgt) ;;
  self <- get_manager ;;
  device <-
    match dict_get (managed_devices self) addr with
    | None =>
        device <- PranaDevice.__init__ (TargetStr addr) (loop self) (ble_interface self) ;;
        self <- get_manager ;;
        set_manager
          {| ble_interface := ble_interface self; loop := loop self;
             managed_devices := dict_set (managed_devices self) addr device |} ;;
        ret device
    | Some device => ret device
    end ;;
  PranaDevice.connect device timeout ;;
  ret device.

Fixpoint disconnect_each (devs : list ref) : M unit :=
  match devs with
  | [] => ret tt
  | dev :: devs' => PranaDevice.disconnect dev ;; disconnect_each devs'
  end.

(** [for dev in self.__managed_devices.values(): await dev.disconnect()] *)
Definition disconnect_all : M unit :=
  self <- get_manager ;;
  disconnect_each (dict_values (managed_devices self)).

End Methods.
End PranaDeviceManager.

(** Defaults of the signatures. *)
Definition DEFAULT_IFACE : py_str := lit "hci0".
Definition DISCOVER_TIMEOUT : pynum := PyInt 5.
Definition MANAGER_CONNECT_TIMEOUT : pynum := PyInt 5.
Definition DEVICE_CONNECT_TIMEOUT : pynum := PyInt 2.

(** [PranaDeviceManager(iface, loop)] in a fresh process. *)
Definition initial_world {ENV : Environment} (iface : py_str)
    (l : option event_loop) (e : env_state) : world :=
  {| devices := []; manager := {| ble_interface := iface; loop := l; managed_devices := [] |};
     stdout := []; env := e; trace := [] |}.

(** ** What the specification says in its own words *)

(** "All occurrences of the prefix text are removed": [s] is cut at the
    leftmost occurrence of [old] (no occurrence of [old] begins before
    it), the occurrence is dropped, and the rest is treated the same way;
    a string without an occurrence is left as it is. *)
Inductive removed_all (old : py_str) : py_str -> py_str -> Prop :=
| removed_none (s : py_str) :
    (forall a b, s <> a ++ old ++ b) ->
    removed_all old s s
| removed_first (p rest r : py_str) :
    (forall a b, p ++ old = a ++ old ++ b -> a = p) ->
    removed_all old rest r ->
    removed_all old (p ++ old ++ rest) (p ++ r).

(** No whitespace at either end. *)
Definition no_leading_whitespace (s : py_str) : Prop :=
  match s with
  | [] => True
  | c :: _ => PyStr.is_whitespace c = false
  end.

Definition no_trailing_whitespace (s : py_str) : Prop :=
  no_leading_whitespace (rev s).

(** [payload[i]] as a number, for stating what [decode] reads. *)
Definition byte_at (data : bytes) (i : nat) : Z := byte_val (nth i data x00).

(** ** The registry's invariant *)

Section Invariants.
Context {ENV : Environment}.

(** One session per address: the keys of [__managed_devices] are
    distinct, so are the sessions they map to, and each of them is a
    live object holding the address it is filed under. *)
Record registry_ok (w : world) : Prop := {
  keys_distinct : NoDup (dict_keys (managed_devices (manager w)));
  sessions_distinct : NoDup (dict_values (managed_devices (manager w)));
  sessions_live : forall a r,
    dict_get (managed_devices (manager w)) a = Some r ->
    exists d, nth_error (devices w) r = Some d /\ pd_address d = a
}.

(** The sessions a world holds are still there in a later one, with
    the address and the client they were built with. *)
Definition sessions_kept (w w' : world) : Prop :=
  forall r d, nth_error (devices w) r = Some d ->
    exists d', nth_error (devices w') r = Some d' /\
               pd_address d' = pd_address d /\ pd_client d' = pd_client d.

(** An address filed in the registry stays filed under the same session. *)
Definition registry_kept (w w' : world) : Prop :=
  forall a r, dict_get (managed_devices (manager w)) a = Some r ->
              dict_get (managed_devices (manager w')) a = Some r.

(** A method body that leaves the registry alone and keeps the sessions. *)
Definition keeps_registry {A : Type} (m : M A) : Prop :=
  forall w, manager (snd (m w)) = manager w /\ sessions_kept w (snd (m w)).

(** [clients] are the clients of the sessions [refs], one for one. *)
Definition sessions_clients (w : world) (refs : list ref)
    (clients : list BleakClient) : Prop :=
  Forall2 (fun r c => exists d, nth_error (devices w) r = Some d /\ pd_client d = c)
          refs clients.

(** The world once [connect] has built the session for a new address
    and filed it. *)
Definition registered (w : world) (addr : py_str) : world :=
  let r := length (devices w) in
  {| devices := devices w ++
       [{| pd_address := addr;
           pd_client := {| bc_id := r; bc_address := addr;
                           bc_loop := loop (manager w);
                           bc_device := ble_interface (manager w) |};
           has_connect_attempts := false |}];
     manager := {| ble_interface := ble_interface (manager w);
                   loop := loop (manager w);
                   managed_devices := dict_set (managed_devices (manager w)) addr r |};
     stdout := stdout w; env := env w; trace := trace w |}.

(** The environment after it has answered the calls [cs]. *)
Fixpoint env_after (cs : list call) (e : env_state) : env_state :=
  match cs with
  | [] => e
  | c :: cs' => env_after cs' (snd (respond c e))
  end.

(** What a caller can do with the registry and its sessions: the
    public methods of the two classes, the constructor of a session,
    and a notification delivered to a session's handler. (The helper
    [test_retrieve_state] is not part of the model.) *)
Inductive operation : Type :=
| op_discover (timeout : pynum)
| op_connect (tgt : target) (timeout : pynum)
| op_disconnect_all
| op_new_session (tgt : target) (l : option event_loop) (iface : py_str)
| op_session_connect (self : ref) (timeout : pynum)
| op_session_disconnect (self : ref)
| op_is_connected (self : ref)
| op_set_high_speed (self : ref)
| op_set_night_mode (self : ref)
| op_turn_off (self : ref)
| op_read_state (self : ref)
| op_notification (self : ref) (sender : Z) (data : bytes).

Definition perform (o : operation) : M unit :=
  match o with
  | op_discover t => PranaDeviceManager.discover t ;; ret tt
  | op_connect tgt t => PranaDeviceManager.connect tgt t ;; ret tt
  | op_disconnect_all => PranaDeviceManager.disconnect_all
  | op_new_session tgt l iface => PranaDevice.__init__ tgt l iface ;; ret tt
  | op_session_connect self t => PranaDevice.connect self t
  | op_session_disconnect self => PranaDevice.disconnect self
  | op_is_connected self => PranaDevice.is_connected self ;; ret tt
  | op_set_high_speed self => PranaDevice.set_high_speed self
  | op_set_night_mode self => PranaDevice.set_night_mode self
  | op_turn_off self => PranaDevice.turn_off self
  | op_read_state self => PranaDevice.read_state self ;; ret tt
  | op_notification self sender data => PranaDevice.notification_handler self sender data
  end.

(** A run of operations; one that raises leaves the world as it
    was when it raised, and the caller goes on. *)
Fixpoint perform_all (os : list operation) (w : world) : world :=
  match os with
  | [] => w
  | o :: os' => perform_all os' (snd (perform o w))
  end.
End Invariants.

(** ** A simulated transport, for running the driver on concrete inputs *)

Module Simulated.

(** The advertisements a scan finds, the clients whose open or close is
    refused, the clients with an open link, the subscriptions made
    (client, handler), and the value of the control characteristic. *)
Record state : Type := {
  adverts : list BLEDevice;
  refuse_connect : list nat;
  refuse_disconnect : list nat;
  connected : list nat;
  subscribed : list (nat * ref);
  value : bytes
}.

Definition mem (n : nat) (l : list nat) : bool := existsb (Nat.eqb n) l.

Definition answer (c : call) (s : state) : outcome (reply_ty c) * state :=
  match c as c0 return outcome (reply_ty c0) * state with
  | bleak_discover _ _ => (Ok (adverts s), s)
  | client_connect cl _ =>
      if mem (bc_id cl) (refuse_connect s)
      then (Raised (ExternalError "BleakError"), s)
      else (Ok tt,
            {| adverts := adverts s; refuse_connect := refuse_connect s;
               refuse_disconnect := refuse_disconnect s;
               connected := bc_id cl :: connected s;
               subscribed := subscribed s; value := value s |})
  | client_disconnect cl =>
      if mem (bc_id cl) (refuse_disconnect s)
      then (Raised (ExternalError "BleakError"), s)
      else (Ok tt,
            {| adverts := adverts s; refuse_connect := refuse_connect s;
               refuse_disconnect := refuse_disconnect s;
               connected := List.filter (fun i => negb (Nat.eqb i (bc_id cl))) (connected s);
               subscribed := subscribed s; value := value s |})
  | client_is_connected cl => (Ok (mem (bc_id cl) (connected s)), s)
  | client_start_notify cl _ h =>
      (Ok tt,
       {| adverts := adverts s; refuse_connect := refuse_connect s;
          refuse_disconnect := refuse_disconnect s; connected := connected s;
          subscribed := subscribed s ++ [(bc_id cl, h)]; value := value s |})
  | client_write_gatt_char _ _ _ _ => (Ok tt, s)
  | client_read_gatt_char _ _ _ => (Ok (value s), s)
  | asyncio_sleep _ => (Ok tt, s)
  end.

Definition transport : Environment :=
  {| env_state := state; respond := answer |}.

(** A transport that refuses nothing and has seen nothing yet. *)
Definition quiet (v : bytes) : state :=
  {| adverts := []; refuse_connect := []; refuse_disconnect := [];
     connected := []; subscribed := []; value := v |}.

Definition refusing (opens closes : list nat) : state :=
  {| adverts := []; refuse_connect := opens; refuse_disconnect := closes;
     connected := []; subscribed := []; value := [] |}.

Definition start (e : state) : @world transport :=
  @initial_world transport DEFAULT_IFACE None e.

End Simulated.

(** Advertisements: the end-to-end scenario of the specification, a name
    with the prefix text inside it but not in front, and a name in which
    removing two occurrences of the prefix joins a third. *)
Definition advert (n : string) : BLEDevice :=
  {| dev_address := lit "AA:BB:CC:DD:EE:FF"; dev_name := Some (lit n); dev_rssi := -60 |}.

Definition living_room : BLEDevice := advert "PRNAQaq Living Room".
Definition prefix_inside : BLEDevice := advert "xPRNAQaq".
Definition prefix_rejoined : BLEDevice := advert "PRNAQaqPRNAQPRNAQaqaq".

(** Worlds to run the driver in: a session built but never connected, a
    registry after one [connect], and after a second one to another address. *)
Definition session_address : py_str := lit "AA:BB:CC:DD:EE:FF".
Definition other_address : py_str := lit "11:22:33:44:55:66".

Definition fresh_session (e : Simulated.state) : @world Simulated.transport :=
  snd (@PranaDevice.__init__ Simulated.transport
         (TargetStr session_address) None DEFAULT_IFACE (Simulated.start e)).

Definition connected_once (e : Simulated.state) : @world Simulated.transport :=
  snd (@PranaDeviceManager.connect Simulated.transport
         (TargetStr session_address) MANAGER_CONNECT_TIMEOUT (Simulated.start e)).

Definition two_sessions (e : Simulated.state) : @world Simulated.transport :=
  snd (@PranaDeviceManager.connect Simulated.transport
         (TargetStr other_address) MANAGER_CONNECT_TIMEOUT (connected_once e)).

(** The session [d] with its flag set. *)
Definition attempted (d : PranaDevice_obj) : PranaDevice_obj :=
  {| pd_address := pd_address d; pd_client := pd_client d;
     has_connect_attempts := true |}.

(** The client the constructor gives the session at reference [r]. *)
Definition client_at (r : ref) (addr : py_str) : BleakClient :=
  {| bc_id := r; bc_address := addr; bc_loop := None; bc_device := DEFAULT_IFACE |}.

(** A state payload: the marker, then zeros, with byte 10 = 1 and
    byte 26 = 50 (the end-to-end scenario of the specification). *)
Definition sample_payload : bytes :=
  [xbe; xef] ++ repeat x00 8 ++ [x01] ++ repeat x00 15 ++ [x32] ++ repeat x00 16.

(** A transport that answers a given number of calls and raises from
    then on, for running the driver into a failure at a chosen call. *)
Module Countdown.

Definition reply (c : call) : reply_ty c :=
  match c as c0 return reply_ty c0 with
  | bleak_discover _ _ => []
  | client_is_connected _ => true
  | client_read_gatt_char _ _ _ => []
  | client_connect _ _ => tt
  | client_disconnect _ => tt
  | client_start_notify _ _ _ => tt
  | client_write_gatt_char _ _ _ _ => tt
  | asyncio_sleep _ => tt
  end.

Definition answer (c : call) (n : nat) : outcome (reply_ty c) * nat :=
  match n with
  | O => (Raised (ExternalError "BleakError"), O)
  | S k => (Ok (reply c), k)
  end.

Definition transport : Environment :=
  {| env_state := nat; respond := answer |}.

(** A session built but never connected, the transport good for [n] calls. *)
Definition fresh_session (n : nat) : @world transport :=
  snd (@PranaDevice.__init__ transport (TargetStr session_address) None DEFAULT_IFACE
         (@initial_world transport DEFAULT_IFACE None n)).

End Countdown.

(** The command catalog of [PranaDevice.Cmd], in the order of the source. *)
Definition command_catalog : list bytes :=
  [PranaDevice.Cmd.ENABLE_HIGH_SPEED; PranaDevice.Cmd.ENABLE_NIGHT_MODE;
   PranaDevice.Cmd.TOGGLE_FLOW_LOCK; PranaDevice.Cmd.TOGGLE_HEATING;
   PranaDevice.Cmd.TOGGLE_WINTER_MODE;
   PranaDevice.Cmd.SPEED_UP; PranaDevice.Cmd.SPEED_DOWN;
   PranaDevice.Cmd.SPEED_IN_UP; PranaDevice.Cmd.SPEED_IN_DOWN;
   PranaDevice.Cmd.SPEED_OUT_UP; PranaDevice.Cmd.SPEED_OUT_DOWN;
   PranaDevice.Cmd.FLOW_IN_OFF; PranaDevice.Cmd.FLOW_OUT_OFF;
   PranaDevice.Cmd.STOP; PranaDevice.Cmd.READ_STATE;
   PranaDevice.Cmd.READ_DEVICE_DETAILS].

Section Growth.
Context {ENV : Environment}.

(** The sessions of a world are still there in a later one, with their
    address and client, and a flag that was set is still set. *)
Definition sessions_grow (w w' : world) : Prop :=
  forall r d, nth_error (devices w) r = Some d ->
    exists d', nth_error (devices w') r = Some d' /\
               pd_address d' = pd_address d /\ pd_client d' = pd_client d /\
               (has_connect_attempts d = true -> has_connect_attempts d' = true).

Definition grows {A : Type} (m : M A) : Prop :=
  forall w, sessions_grow w (snd (m w)).

(** The world a session is in after an exchange: only the environment
    and the trace have moved. *)
Definition after_calls (w : world) (e : env_state) (cs : list call) : world :=
  {| devices := devices w; manager := manager w; stdout := stdout w;
     env := e; trace := trace w ++ cs |}.

(** One exchange of [_send_command] on the client [c], and an
    environment that answers all of it, the read with [data]. *)
Definition exchange (c : BleakClient) (command : bytes) : list call :=
  [client_write_gatt_char c PranaDevice.CONTROL_RW_CHARACTERISTIC_UUID command true;
   asyncio_sleep PranaDevice.SETTLE_DELAY;
   client_read_gatt_char c PranaDevice.CONTROL_RW_CHARACTERISTIC_UUID false].

Definition answers_exchange (c : BleakClient) (command : bytes)
    (e0 e3 : env_state) (data : bytes) : Prop :=
  exists e1 e2,
    respond (client_write_gatt_char c PranaDevice.CONTROL_RW_CHARACTERISTIC_UUID command true) e0
      = (Ok tt, e1) /\
    respond (asyncio_sleep PranaDevice.SETTLE_DELAY) e1 = (Ok tt, e2) /\
    respond (client_read_gatt_char c PranaDevice.CONTROL_RW_CHARACTERISTIC_UUID false) e2
      = (Ok data, e3).

(** The closes of [closed], asked in this order from the environment
    [e], all return. *)
Definition closes_succeed (closed : list BleakClient) (e : env_state) : Prop :=
  forall before c after,
    closed = before ++ c :: after ->
    fst (respond (client_disconnect c)
           (env_after (List.map client_disconnect before) e)) = Ok tt.

(** The world after [print] wrote [ps]. *)
Definition after_output (w : world) (ps : list printed) : world :=
  {| devices := devices w; manager := manager w; stdout := stdout w ++ ps;
     env := env w; trace := trace w |}.
End Growth.

(** * Properties *)

Unset Implicit Arguments.

(** ** The state codec *)

Section Codec.
Context {ENV : Environment}.

Lemma int_of_truediv_10 (b : byte) :
  int_of_float (int_truediv (byte_val b) 10) = Ok (byte_val b / 10).
Proof. destruct b; vm_compute; reflexivity. Qed.

Lemma getitem_in_range (data : bytes) (i : nat) :
  (i < length data)%nat -> getitem data i = Ok (byte_at data i).
Proof.
  intro Hi. unfold getitem, byte_at.
  now rewrite (nth_error_nth' data x00 Hi).
Qed.

Lemma getitem_out_of_range (data : bytes) (i : nat) :
  (length data <= i)%nat -> getitem data i = Raised IndexError.
Proof.
  intro Hi. unfold getitem.
  now rewrite (proj2 (nth_error_None data i) Hi).
Qed.

Lemma getitem_cases (data : bytes) (i : nat) :
  ((i < length data)%nat /\ getitem data i = Ok (byte_at data i)) \/
  ((length data <= i)%nat /\ getitem data i = Raised IndexError).
Proof.
  destruct (Nat.lt_ge_cases i (length data)) as [Hi | Hi].
  - left. split; [exact Hi | now apply getitem_in_range].
  - right. split; [exact Hi | now apply getitem_out_of_range].
Qed.

Lemma byte_at_div_10 (data : bytes) (i : nat) :
  int_of_float (int_truediv (byte_at data i) 10) = Ok (byte_at data i / 10).
Proof. apply int_of_truediv_10. Qed.

Lemma bytes_eqb_true (a b : bytes) : bytes_eqb a b = true <-> a = b.
Proof.
  unfold bytes_eqb. destruct (list_eq_dec Byte.byte_eq_dec a b); split;
    intros; congruence.
Qed.

Lemma bytes_eqb_false (a b : bytes) : bytes_eqb a b = false <-> a <> b.
Proof.
  unfold bytes_eqb. destruct (list_eq_dec Byte.byte_eq_dec a b); split;
    intros; congruence.
Qed.

(** With all eleven offsets in range the fields are read as the
    specification lists them. *)
Lemma read_fields_long (data : bytes) :
  (43 <= length data)%nat ->
  PranaDevice.read_fields data =
  Ok {| speed_locked := byte_at data 26 / 10;
        speed_in := byte_at data 30 / 10;
        speed_out := byte_at data 34 / 10;
        auto_mode := int_truthy (byte_at data 20);
        night_mode := int_truthy (byte_at data 16);
        flows_locked := int_truthy (byte_at data 22);
        is_on := int_truthy (byte_at data 10);
        mini_heating_enabled := int_truthy (byte_at data 14);
        winter_mode_enabled := int_truthy (byte_at data 42);
        is_input_fan_on := int_truthy (byte_at data 28);
        is_output_fan_on := int_truthy (byte_at data 32) |}.
Proof.
  intro Hlen. unfold PranaDevice.read_fields.
  rewrite !getitem_in_range by lia. cbn [obind].
  rewrite !byte_at_div_10. reflexivity.
Qed.

(** With offset 42 out of range some index raises, whichever comes
    first in the order of the assignments. *)
Lemma read_fields_short (data : bytes) :
  (length data <= 42)%nat ->
  PranaDevice.read_fields data = Raised IndexError.
Proof.
  intro Hlen. unfold PranaDevice.read_fields.
  repeat
    match goal with
    | |- context [getitem data ?i] =>
        destruct (getitem_cases data i) as [[? ->] | [? ->]];
        cbn [obind]; rewrite ?byte_at_div_10; cbn [obind];
        try reflexivity; try lia
    end.
Qed.

(** C1. A payload whose first two bytes are not [BE EF] decodes to
    [None]; a payload that starts with the marker and has at least 43
    bytes decodes to a state, each boolean field being "the byte at its
    offset is not zero" (10 isOn, 14 miniHeatingEnabled, 16 nightMode,
    20 autoMode, 22 flowsLocked, 28 inputFanOn, 32 outputFanOn,
    42 winterModeEnabled) and each speed the byte at its offset divided
    by 10, rounded down (26 lockedSpeed, 30 inputSpeed, 34 outputSpeed).
    The payload is printed on the way, nothing else changes. *)
Theorem parse_state_decodes (self : ref) (data : bytes) (w : world) :
  (firstn 2 data <> [xbe; xef] ->
   PranaDevice.__parse_state self data w = (Ok None, w)) /\
  (firstn 2 data = [xbe; xef] -> (43 <= length data)%nat ->
   exists s : PranaState,
     PranaDevice.__parse_state self data w
       = (Ok (Some s), snd (print (PrintBytes data) w)) /\
     is_on s = negb (byte_at data 10 =? 0) /\
     mini_heating_enabled s = negb (byte_at data 14 =? 0) /\
     night_mode s = negb (byte_at data 16 =? 0) /\
     auto_mode s = negb (byte_at data 20 =? 0) /\
     flows_locked s = negb (byte_at data 22 =? 0) /\
     is_input_fan_on s = negb (byte_at data 28 =? 0) /\
     is_output_fan_on s = negb (byte_at data 32 =? 0) /\
     winter_mode_enabled s = negb (byte_at data 42 =? 0) /\
     speed_locked s = byte_at data 26 / 10 /\
     speed_in s = byte_at data 30 / 10 /\
     speed_out s = byte_at data 34 / 10).
Proof.
  split.
  - intro Hmark. unfold PranaDevice.__parse_state.
    apply bytes_eqb_false in Hmark.
    unfold PranaDevice.STATE_MSG_PREFIX. now rewrite Hmark.
  - intros Hmark Hlen. eexists. split.
    + unfold PranaDevice.__parse_state.
      apply bytes_eqb_true in Hmark.
      unfold PranaDevice.STATE_MSG_PREFIX. rewrite Hmark. cbn [negb].
      unfold bind, lift, ret. cbn [print snd].
      rewrite (read_fields_long data Hlen). reflexivity.
    + cbn. unfold int_truthy. repeat split; reflexivity.
Qed.

(** C10. A payload that starts with the marker and has 42 bytes or
    fewer makes [__parse_state] raise [IndexError]: it returns neither
    [None] nor a state. *)
Theorem parse_state_short_payload_raises (self : ref) (data : bytes) (w : world) :
  firstn 2 data = [xbe; xef] -> (length data <= 42)%nat ->
  PranaDevice.__parse_state self data w
    = (Raised IndexError, snd (print (PrintBytes data) w)) /\
  (forall r : option PranaState,
     fst (PranaDevice.__parse_state self data w) <> Ok r).
Proof.
  intros Hmark Hlen.
  assert (H : PranaDevice.__parse_state self data w
              = (Raised IndexError, snd (print (PrintBytes data) w))).
  { unfold PranaDevice.__parse_state.
    apply bytes_eqb_true in Hmark.
    unfold PranaDevice.STATE_MSG_PREFIX. rewrite Hmark. cbn [negb].
    unfold bind, lift, ret. cbn [print snd].
    rewrite (read_fields_short data Hlen). reflexivity. }
  split; [exact H |]. intros r. rewrite H. discriminate.
Qed.

End Codec.

Lemma parse_state_decodes_witness :
  @PranaDevice.__parse_state Simulated.transport 0%nat [xca; xfe]
     (Simulated.start (Simulated.quiet []))
   = (Ok None, Simulated.start (Simulated.quiet [])) /\
  exists s : PranaState,
    fst (@PranaDevice.__parse_state Simulated.transport 0%nat sample_payload
           (Simulated.start (Simulated.quiet []))) = Ok (Some s) /\
    is_on s = true /\ speed_locked s = 5 /\ night_mode s = false /\ speed_in s = 0.
Proof.
  split.
  - apply (parse_state_decodes (ENV := Simulated.transport)). discriminate.
  - destruct (proj2 (parse_state_decodes (ENV := Simulated.transport) 0%nat
                       sample_payload (Simulated.start (Simulated.quiet [])))
                eq_refl ltac:(vm_compute; lia))
      as (s & Hs & Hon & _ & Hnight & _ & _ & _ & _ & _ & Hlocked & Hin & _).
    exists s. rewrite Hs, Hon, Hlocked, Hnight, Hin.
    repeat split; reflexivity.
Defined.

Lemma parse_state_short_payload_witness :
  @PranaDevice.__parse_state Simulated.transport 0%nat (firstn 42 sample_payload)
     (Simulated.start (Simulated.quiet []))
  = (Raised IndexError,
     snd (print (PrintBytes (firstn 42 sample_payload))
            (Simulated.start (Simulated.quiet [])))).
Proof.
  apply (parse_state_short_payload_raises (ENV := Simulated.transport)).
  - reflexivity.
  - vm_compute. lia.
Defined.

(** ** Strings: prefix test, strip, replace *)

Section Strings.
Import PyStr.

Lemma startswith_app (p rest : py_str) : startswith (p ++ rest) p = true.
Proof.
  induction p as [| c p IH]; [reflexivity |].
  cbn. now rewrite N.eqb_refl, IH.
Qed.

Lemma startswith_true (s p : py_str) :
  startswith s p = true <-> exists rest, s = p ++ rest.
Proof.
  split.
  - revert s. induction p as [| c p IH]; intros s H.
    + now exists s.
    + destruct s as [| x s]; [discriminate |]. cbn in H.
      apply andb_true_iff in H. destruct H as [Hx Hs].
      apply N.eqb_eq in Hx. subst x.
      destruct (IH s Hs) as [rest ->]. now exists rest.
  - intros [rest ->]. apply startswith_app.
Qed.

Lemma startswith_false (s p : py_str) :
  startswith s p = false -> forall rest, s <> p ++ rest.
Proof.
  intros H rest ->. now rewrite startswith_app in H.
Qed.

(** [lstrip] drops a run of whitespace and nothing else. *)
Lemma lstrip_suffix (s : py_str) :
  exists ws, s = ws ++ lstrip s.
Proof.
  induction s as [| c s [ws IH]].
  - now exists [].
  - cbn. destruct (is_whitespace c).
    + exists (c :: ws). cbn. now f_equal.
    + now exists [].
Qed.

Lemma lstrip_no_leading (s : py_str) : no_leading_whitespace (lstrip s).
Proof.
  induction s as [| c s IH]; [exact I |].
  cbn. destruct (is_whitespace c) eqn:Hc; [exact IH | exact Hc].
Qed.

Lemma rstrip_prefix (s : py_str) :
  exists ws, s = rstrip s ++ ws.
Proof.
  unfold rstrip. destruct (lstrip_suffix (rev s)) as [ws H].
  exists (rev ws). rewrite <- rev_app_distr, <- H. now rewrite rev_involutive.
Qed.

Lemma rstrip_keeps_no_leading (s : py_str) :
  no_leading_whitespace s -> no_leading_whitespace (rstrip s).
Proof.
  intro H. destruct (rstrip_prefix s) as [ws Hs].
  destruct (rstrip s) as [| c t]; [exact I |].
  rewrite Hs in H. exact H.
Qed.

Lemma strip_no_leading (s : py_str) : no_leading_whitespace (strip s).
Proof. apply rstrip_keeps_no_leading, lstrip_no_leading. Qed.

Lemma strip_no_trailing (s : py_str) : no_trailing_whitespace (strip s).
Proof.
  unfold no_trailing_whitespace, strip, rstrip.
  rewrite rev_involutive. apply lstrip_no_leading.
Qed.

Section Replace.
Variables old new : py_str.

Lemma replace_scan_skip (x rest : py_str) :
  replace_scan old new (x ++ rest) (length x) = replace_scan old new rest 0.
Proof.
  induction x as [| c x IH]; cbn.
  - now destruct rest.
  - exact IH.
Qed.

Lemma replace_scan_at_occurrence (rest : py_str) :
  old <> [] ->
  replace_scan old new (old ++ rest) 0 = new ++ replace_scan old new rest 0.
Proof.
  intro Hold. destruct old as [| o old'] eqn:E; [congruence |].
  rewrite <- E.
  assert (Hs : startswith (old ++ rest) old = true) by apply startswith_app.
  rewrite E in *. cbn [app replace_scan]. cbn [app] in Hs. rewrite Hs.
  f_equal. cbn [length Nat.pred]. rewrite <- E. apply replace_scan_skip.
Qed.

Lemma replace_scan_elsewhere (c : N) (s : py_str) :
  startswith (c :: s) old = false ->
  replace_scan old new (c :: s) 0 = c :: replace_scan old new s 0.
Proof. intro H. cbn [replace_scan]. now rewrite H. Qed.
End Replace.

Lemma occurrence_not_shorter (old a b : py_str) :
  old = a ++ old ++ b -> a = [].
Proof.
  intro H. apply (f_equal (@length N)) in H.
  rewrite !length_app in H. destruct a; [reflexivity | cbn in H; lia].
Qed.

(** The scan removes the occurrences of [old] the way the
    specification words it. *)
Lemma replace_scan_removes_all (old : py_str) :
  old <> [] ->
  forall (n : nat) (s : py_str), (length s <= n)%nat ->
    removed_all old s (replace_scan old [] s 0).
Proof.
  intros Hold n. induction n as [| n IH]; intros s Hlen.
  - destruct s; [| cbn in Hlen; lia]. cbn.
    apply removed_none. intros a b H.
    destruct a; [destruct old; [congruence | discriminate] | discriminate].
  - destruct s as [| c s].
    + cbn. apply removed_none. intros a b H.
      destruct a; [destruct old; [congruence | discriminate] | discriminate].
    + destruct (startswith (c :: s) old) eqn:Hst.
      * apply startswith_true in Hst. destruct Hst as [rest Hrest].
        rewrite Hrest, replace_scan_at_occurrence by exact Hold.
        apply (@removed_first old [] rest).
        -- intros a b H. cbn in H. now apply occurrence_not_shorter in H.
        -- apply IH. apply (f_equal (@length N)) in Hrest.
           rewrite length_app in Hrest. cbn in Hrest, Hlen.
           destruct old; [congruence | cbn in Hrest; lia].
      * rewrite replace_scan_elsewhere by exact Hst.
        assert (Hs : (length s <= n)%nat) by (cbn in Hlen; lia).
        specialize (IH s Hs).
        remember (replace_scan old [] s 0) as r eqn:Er. clear Er.
        destruct IH as [s Hnone | p rest r Hleft Hrest].
        -- apply removed_none. intros a b H.
           destruct a as [| x a].
           ++ cbn in H. now apply (@startswith_false _ _ Hst b H).
           ++ cbn in H. injection H as _ H. now apply (Hnone a b H).
        -- apply (@removed_first old (c :: p) rest r); [| exact Hrest].
           intros a b H. destruct a as [| x a].
           ++ exfalso.
              apply (@startswith_false _ _ Hst (b ++ rest)).
              change (c :: p ++ old ++ rest) with ((c :: p) ++ old ++ rest).
              rewrite app_assoc, H. cbn [app]. now rewrite <- app_assoc.
           ++ cbn in H. injection H as Hx H. subst x. f_equal.
              now apply (Hleft a b).
Qed.

Lemma replace_removes_all (old s : py_str) :
  old <> [] -> removed_all old s (replace s old []).
Proof.
  intro Hold. unfold replace. destruct old as [| o old'] eqn:E; [congruence |].
  rewrite <- E. apply (replace_scan_removes_all old) with (n := length s).
  - congruence.
  - lia.
Qed.

End Strings.

(** ** The identity filter *)

Section IdentityFilter.
Import PranaDeviceManager.

Lemma is_prana_device_true (dev : BLEDevice) :
  truthy (__is_prana_device dev) = true <->
  exists n, dev_name dev = Some n /\ n <> [] /\
            exists rest, n = PRANA_DEVICE_NAME_PREFIX ++ rest.
Proof.
  unfold __is_prana_device. split.
  - destruct (dev_name dev) as [[| c s] |]; cbn [truthy]; try discriminate.
    intro H. exists (c :: s). repeat split; [discriminate |].
    now apply startswith_true.
  - intros (n & -> & Hne & Hrest).
    destruct n as [| c s]; [congruence |]. cbn [truthy].
    now apply startswith_true.
Qed.

Lemma friendly_name_of_nonempty (n : py_str) :
  n <> [] ->
  __prana_dev_name_2_name (Some n)
  = Some (PyStr.strip (PyStr.replace n PRANA_DEVICE_NAME_PREFIX [])).
Proof. destruct n; [congruence | reflexivity]. Qed.

(** C2, as the code has it. The filter matches a name exactly when the
    name is non-empty and starts with ["PRNAQaq"]; the friendly name of a
    matched name is the name with the prefix text replaced by nothing and
    then stripped, and it has no whitespace at either end. *)
Theorem identity_filter_matches_prefix (dev : BLEDevice) :
  (truthy (__is_prana_device dev) = true <->
     exists n, dev_name dev = Some n /\ n <> [] /\
               exists rest, n = PRANA_DEVICE_NAME_PREFIX ++ rest) /\
  (truthy (__is_prana_device dev) = true ->
     exists n f,
       dev_name dev = Some n /\
       __prana_dev_name_2_name (dev_name dev) = Some f /\
       f = PyStr.strip (PyStr.replace n PRANA_DEVICE_NAME_PREFIX []) /\
       no_leading_whitespace f /\ no_trailing_whitespace f).
Proof.
  split; [apply is_prana_device_true |].
  intro H. apply is_prana_device_true in H.
  destruct H as (n & Hn & Hne & _).
  exists n, (PyStr.strip (PyStr.replace n PRANA_DEVICE_NAME_PREFIX [])).
  rewrite Hn. split; [reflexivity |].
  split; [now apply friendly_name_of_nonempty |].
  split; [reflexivity |].
  split; [apply strip_no_leading | apply strip_no_trailing].
Qed.

Lemma select_cons (dev : BLEDevice) (devs : list BLEDevice) :
  select (dev :: devs) = select [dev] ++ select devs.
Proof.
  unfold select. cbn [filter].
  destruct (truthy (__is_prana_device dev)); reflexivity.
Qed.

Lemma select_one (dev : BLEDevice) :
  select [dev] = if truthy (__is_prana_device dev) then [device_info dev] else [].
Proof.
  unfold select. cbn [filter].
  destruct (truthy (__is_prana_device dev)); reflexivity.
Qed.

Lemma prefix_not_empty : PRANA_DEVICE_NAME_PREFIX <> [].
Proof. discriminate. Qed.

(** C3. An advertisement yields an identity exactly when its name is
    non-empty and starts with ["PRNAQaq"], and nothing otherwise; the
    friendly name is the name with all occurrences of the prefix text
    removed, then stripped. [discover] returns the identities of the
    scan's advertisements, each decided on its own, in the scan's order. *)
Theorem discover_identity_contract (ENV : Environment) (dev : BLEDevice) :
  (select [dev] = [device_info dev] \/ select [dev] = []) /\
  (select [dev] = [device_info dev] <->
     exists n, dev_name dev = Some n /\ n <> [] /\
               exists rest, n = PRANA_DEVICE_NAME_PREFIX ++ rest) /\
  (forall n, dev_name dev = Some n -> n <> [] ->
     exists f, removed_all PRANA_DEVICE_NAME_PREFIX n f /\
               name (device_info dev) = Some (PyStr.strip f)) /\
  (forall devs, select devs = flat_map (fun d => select [d]) devs) /\
  (forall (timeout : pynum) (w : world),
     fst (discover timeout w)
     = match fst (respond (bleak_discover timeout (loop (manager w))) (env w)) with
       | Ok devs => Ok (select devs)
       | Raised e => Raised e
       end).
Proof.
  split; [| split; [| split; [| split]]].
  - rewrite select_one. destruct (truthy (__is_prana_device dev)); auto.
  - rewrite <- is_prana_device_true, select_one.
    destruct (truthy (__is_prana_device dev)); split; intro H;
      try reflexivity; discriminate.
  - intros n Hn Hne.
    exists (PyStr.replace n PRANA_DEVICE_NAME_PREFIX []). split.
    + apply replace_removes_all, prefix_not_empty.
    + cbn [device_info name]. rewrite Hn. now apply friendly_name_of_nonempty.
  - induction devs as [| d devs IH]; [reflexivity |].
    rewrite select_cons. cbn [flat_map]. now rewrite IH.
  - intros timeout w. unfold discover, bind, get_manager, await, ret.
    destruct (respond (bleak_discover timeout (loop (manager w))) (env w))
      as [[devs | e] e']; reflexivity.
Qed.

End IdentityFilter.

(** The end-to-end scenario: ["PRNAQaq Living Room"] is accepted and
    named ["Living Room"]. *)
Example living_room_identity :
  PranaDeviceManager.select [living_room]
  = [{| address := lit "AA:BB:CC:DD:EE:FF";
        bt_device_name := lit "PRNAQaq Living Room";
        name := Some (lit "Living Room");
        rssi := -60 |}].
Proof. vm_compute. reflexivity. Qed.

(** C2 as stated fails twice: a name that contains the prefix without
    starting with it is not matched, and the friendly name of a matched
    name can contain the prefix again. *)
Lemma identity_filter_contains_counterexample :
  (dev_name prefix_inside
     = Some (lit "x" ++ PranaDeviceManager.PRANA_DEVICE_NAME_PREFIX ++ []) /\
   PranaDeviceManager.truthy (PranaDeviceManager.__is_prana_device prefix_inside) = false) /\
  (PranaDeviceManager.truthy (PranaDeviceManager.__is_prana_device prefix_rejoined) = true /\
   PranaDeviceManager.__prana_dev_name_2_name (dev_name prefix_rejoined)
     = Some ([] ++ PranaDeviceManager.PRANA_DEVICE_NAME_PREFIX ++ [])).
Proof. vm_compute. repeat split; reflexivity. Qed.

Lemma identity_filter_matches_prefix_witness :
  exists n f,
    dev_name living_room = Some n /\
    PranaDeviceManager.__prana_dev_name_2_name (dev_name living_room) = Some f /\
    f = PyStr.strip (PyStr.replace n PranaDeviceManager.PRANA_DEVICE_NAME_PREFIX []) /\
    no_leading_whitespace f /\ no_trailing_whitespace f.
Proof.
  apply (identity_filter_matches_prefix living_room). reflexivity.
Defined.

Lemma discover_identity_contract_witness :
  exists f,
    removed_all PranaDeviceManager.PRANA_DEVICE_NAME_PREFIX (lit "PRNAQaq Living Room") f /\
    name (PranaDeviceManager.device_info living_room) = Some (PyStr.strip f).
Proof.
  apply (discover_identity_contract Simulated.transport living_room).
  - reflexivity.
  - discriminate.
Defined.

(** ** Sessions *)

Section Sessions.
Context {ENV : Environment}.
Import PranaDevice.

Lemma deref_live (self : ref) (d : PranaDevice_obj) (w : world) :
  nth_error (devices w) self = Some d -> deref self w = (Ok d, w).
Proof. intro H. unfold deref. now rewrite H. Qed.

Lemma client_of_live (self : ref) (d : PranaDevice_obj) (w : world) :
  nth_error (devices w) self = Some d -> client_of self w = (Ok (pd_client d), w).
Proof. intro H. unfold client_of, bind, ret. now rewrite (deref_live self d w H). Qed.

(** The whole of [_send_command], call by call: the first call that
    raises ends the exchange and its exception goes to the caller. *)
Lemma send_command_run (self : ref) (d : PranaDevice_obj) (command : bytes)
    (expect_reply : bool) (w : world) :
  nth_error (devices w) self = Some d ->
  let wr := client_write_gatt_char (pd_client d) CONTROL_RW_CHARACTERISTIC_UUID command true in
  let sl := asyncio_sleep SETTLE_DELAY in
  let rd := client_read_gatt_char (pd_client d) CONTROL_RW_CHARACTERISTIC_UUID false in
  let after (e : env_state) (cs : list call) :=
    {| devices := devices w; manager := manager w; stdout := stdout w;
       env := e; trace := trace w ++ cs |} in
  _send_command self command expect_reply w =
  match respond wr (env w) with
  | (Raised x, e1) => (Raised x, after e1 [wr])
  | (Ok _, e1) =>
      match respond sl e1 with
      | (Raised x, e2) => (Raised x, after e2 [wr; sl])
      | (Ok _, e2) =>
          match respond rd e2 with
          | (Raised x, e3) => (Raised x, after e3 [wr; sl; rd])
          | (Ok data, e3) =>
              (Ok (if expect_reply then Some data else None), after e3 [wr; sl; rd])
          end
      end
  end.
Proof.
  intros Hd wr sl rd after. unfold _send_command, bind.
  rewrite (client_of_live self d w Hd). unfold await at 1. fold wr.
  destruct (respond wr (env w)) as [[[] | x] e1]; [| reflexivity].
  unfold await at 1. cbn [env trace]. fold sl.
  destruct (respond sl e1) as [[[] | x] e2];
    [| subst after; cbn; now rewrite <- app_assoc].
  unfold client_of, bind, deref, ret. cbn [devices]. rewrite Hd.
  unfold await. cbn [env trace devices manager stdout]. fold rd.
  destruct (respond rd e2) as [[data | x] e3]; subst after; cbn;
    rewrite <- !app_assoc; cbn [app]; now destruct expect_reply.
Qed.

(** C9. One exchange of [_send_command]: one write of the command to
    the control characteristic with a response requested, then the
    settle delay of 0.6 s (600 ms), then one read of the characteristic
    with the cache bypassed, and nothing else; the bytes read are the
    result exactly when [expect_reply] is set, otherwise there is none. *)
Theorem send_command_exchange (self : ref) (d : PranaDevice_obj) (command : bytes)
    (expect_reply : bool) (w : world) (e1 e2 e3 : env_state) (data : bytes) :
  nth_error (devices w) self = Some d ->
  respond (client_write_gatt_char (pd_client d) CONTROL_RW_CHARACTERISTIC_UUID command true)
          (env w) = (Ok tt, e1) ->
  respond (asyncio_sleep SETTLE_DELAY) e1 = (Ok tt, e2) ->
  respond (client_read_gatt_char (pd_client d) CONTROL_RW_CHARACTERISTIC_UUID false) e2
    = (Ok data, e3) ->
  _send_command self command expect_reply w
  = (if expect_reply then Ok (Some data) else Ok None,
     {| devices := devices w; manager := manager w; stdout := stdout w;
        env := e3;
        trace := trace w ++
          [client_write_gatt_char (pd_client d) CONTROL_RW_CHARACTERISTIC_UUID command true;
           asyncio_sleep SETTLE_DELAY;
           client_read_gatt_char (pd_client d) CONTROL_RW_CHARACTERISTIC_UUID false] |}) /\
  int_of_float (PrimFloat.mul SETTLE_DELAY (PrimFloat.of_uint63 (Uint63.of_Z 1000)))
  = Ok 600.
Proof.
  intros Hd Hw Hs Hr. split; [| vm_compute; reflexivity].
  rewrite (send_command_run self d command expect_reply w Hd).
  cbv zeta. rewrite Hw, Hs, Hr. now destruct expect_reply.
Qed.

Lemma verify_connected_refuses (self : ref) (w w1 : world) :
  is_connected self w = (Ok false, w1) ->
  __verify_connected self w = (Raised NOT_CONNECTED, w1).
Proof. intro H. unfold __verify_connected, bind. now rewrite H. Qed.

(** [is_connected] touches nothing but the transport's status query. *)
Lemma is_connected_run (self : ref) (w : world) :
  devices (snd (is_connected self w)) = devices w /\
  manager (snd (is_connected self w)) = manager w /\
  stdout (snd (is_connected self w)) = stdout w /\
  (trace (snd (is_connected self w)) = trace w \/
   exists c, trace (snd (is_connected self w)) = trace w ++ [client_is_connected c]).
Proof.
  unfold is_connected, bind, deref.
  destruct (nth_error (devices w) self) as [d |]; [| cbn; auto].
  destruct (has_connect_attempts d); cbn [negb]; [| cbn; auto].
  unfold await. destruct (respond _ (env w)) as [o e']. cbn.
  repeat split; eauto.
Qed.

(** C7. When [is_connected()] is false, each of [set_high_speed],
    [set_night_mode], [turn_off] and [read_state] raises the
    not-connected error ([RuntimeError], "Illegal state: ...") and does
    no characteristic write or read: the only call the transport may
    have seen is the status query of [is_connected] itself. *)
Theorem commands_require_connection (self : ref) (w w1 : world) :
  is_connected self w = (Ok false, w1) ->
  set_high_speed self w = (Raised NOT_CONNECTED, w1) /\
  set_night_mode self w = (Raised NOT_CONNECTED, w1) /\
  turn_off self w = (Raised NOT_CONNECTED, w1) /\
  read_state self w = (Raised NOT_CONNECTED, w1) /\
  devices w1 = devices w /\ manager w1 = manager w /\ stdout w1 = stdout w /\
  (trace w1 = trace w \/ exists c, trace w1 = trace w ++ [client_is_connected c]).
Proof.
  intro H. pose proof (verify_connected_refuses self w w1 H) as Hv.
  unfold set_high_speed, set_night_mode, turn_off, read_state, bind.
  rewrite Hv. repeat (split; [reflexivity |]).
  pose proof (is_connected_run self w) as Hrun. rewrite H in Hrun. exact Hrun.
Qed.

End Sessions.

Lemma send_command_exchange_witness :
  fst (@PranaDevice._send_command Simulated.transport 0%nat PranaDevice.Cmd.READ_STATE true
         (connected_once (Simulated.quiet sample_payload)))
  = Ok (Some sample_payload).
Proof.
  rewrite (proj1 (send_command_exchange (ENV := Simulated.transport) 0%nat
            {| pd_address := session_address;
               pd_client := client_at 0%nat session_address;
               has_connect_attempts := true |}
            PranaDevice.Cmd.READ_STATE true
            (connected_once (Simulated.quiet sample_payload))
            (env (connected_once (Simulated.quiet sample_payload)))
            (env (connected_once (Simulated.quiet sample_payload)))
            (env (connected_once (Simulated.quiet sample_payload)))
            sample_payload eq_refl eq_refl eq_refl eq_refl)).
  reflexivity.
Defined.

Lemma commands_require_connection_witness :
  @PranaDevice.set_high_speed Simulated.transport 0%nat (fresh_session (Simulated.quiet []))
    = (Raised PranaDevice.NOT_CONNECTED, fresh_session (Simulated.quiet [])) /\
  @PranaDevice.read_state Simulated.transport 0%nat (fresh_session (Simulated.quiet []))
    = (Raised PranaDevice.NOT_CONNECTED, fresh_session (Simulated.quiet [])).
Proof.
  destruct (commands_require_connection (ENV := Simulated.transport) 0%nat
              (fresh_session (Simulated.quiet [])) (fresh_session (Simulated.quiet []))
              eq_refl) as (H1 & _ & _ & H4 & _).
  split; [exact H1 | exact H4].
Defined.

(** ** Connecting and disconnecting a session *)

Section Lifecycle.
Context {ENV : Environment}.
Import PranaDevice.

Lemma length_list_update {A : Type} (l : list A) (i : nat) (x : A) :
  length (list_update l i x) = length l.
Proof.
  revert i. induction l as [| y l IH]; intros [| i]; cbn; auto.
Qed.

Lemma nth_error_list_update_same {A : Type} (l : list A) (i : nat) (x y : A) :
  nth_error l i = Some x -> nth_error (list_update l i y) i = Some y.
Proof.
  revert i. induction l as [| z l IH]; intros [| i]; cbn; try discriminate; auto.
Qed.

Lemma nth_error_list_update_other {A : Type} (l : list A) (i j : nat) (y : A) :
  i <> j -> nth_error (list_update l i y) j = nth_error l j.
Proof.
  revert i j. induction l as [| z l IH]; intros [| i] [| j] Hij; cbn;
    try reflexivity; try congruence.
  apply IH. congruence.
Qed.

(** The whole of [connect]: the open, then the flag, then the
    subscription; a refused open ends it before the flag is touched. *)
Lemma connect_run (self : ref) (d : PranaDevice_obj) (timeout : pynum) (w : world) :
  nth_error (devices w) self = Some d ->
  let op := client_connect (pd_client d) timeout in
  let sn := client_start_notify (pd_client d) CONTROL_RW_CHARACTERISTIC_UUID self in
  connect self timeout w =
  match respond op (env w) with
  | (Raised x, e1) =>
      (Raised x,
       {| devices := devices w; manager := manager w; stdout := stdout w;
          env := e1; trace := trace w ++ [op] |})
  | (Ok _, e1) =>
      (fst (respond sn e1),
       {| devices := list_update (devices w) self (attempted d);
          manager := manager w; stdout := stdout w;
          env := snd (respond sn e1); trace := trace w ++ [op; sn] |})
  end.
Proof.
  intros Hd op sn. unfold connect, bind.
  rewrite (client_of_live self d w Hd). unfold await at 1. fold op.
  destruct (respond op (env w)) as [[[] | x] e1]; [| reflexivity].
  unfold set_has_connect_attempts, bind, deref, get_devices, set_devices.
  cbn [devices manager stdout env trace]. rewrite Hd.
  unfold client_of, bind, deref, ret. cbn [devices].
  fold (attempted d).
  rewrite (nth_error_list_update_same (devices w) self d (attempted d) Hd).
  unfold await. cbn [devices manager stdout env trace attempted pd_client].
  fold sn. destruct (respond sn e1) as [o e2]. cbn [fst snd].
  now rewrite <- app_assoc.
Qed.

Lemma disconnect_run (self : ref) (d : PranaDevice_obj) (w : world) :
  nth_error (devices w) self = Some d ->
  disconnect self w =
  (fst (respond (client_disconnect (pd_client d)) (env w)),
   {| devices := devices w; manager := manager w; stdout := stdout w;
      env := snd (respond (client_disconnect (pd_client d)) (env w));
      trace := trace w ++ [client_disconnect (pd_client d)] |}).
Proof.
  intro Hd. unfold disconnect, bind. rewrite (client_of_live self d w Hd).
  unfold await. now destruct (respond _ (env w)).
Qed.

(** C5, as the code has it. When the transport's open raises, [connect]
    raises the same exception and the session is left as it was: the
    flag is not set and no subscription is requested. The flag is set
    once the open has returned, before the subscription is requested. *)
Theorem connect_sets_flag_after_open (self : ref) (d : PranaDevice_obj)
    (timeout : pynum) (w : world) :
  nth_error (devices w) self = Some d ->
  (forall x e1,
     respond (client_connect (pd_client d) timeout) (env w) = (Raised x, e1) ->
     fst (connect self timeout w) = Raised x /\
     nth_error (devices (snd (connect self timeout w))) self = Some d /\
     trace (snd (connect self timeout w))
       = trace w ++ [client_connect (pd_client d) timeout]) /\
  (forall e1,
     respond (client_connect (pd_client d) timeout) (env w) = (Ok tt, e1) ->
     nth_error (devices (snd (connect self timeout w))) self = Some (attempted d) /\
     trace (snd (connect self timeout w))
       = trace w ++ [client_connect (pd_client d) timeout;
                     client_start_notify (pd_client d) CONTROL_RW_CHARACTERISTIC_UUID self]).
Proof.
  intro Hd. rewrite (connect_run self d timeout w Hd). cbv zeta. split.
  - intros x e1 H. rewrite H. cbn. auto.
  - intros e1 H. rewrite H. cbn. split; [| reflexivity].
    now apply nth_error_list_update_same with (x := d).
Qed.

(** C6, as the code has it. [connect] on a session, connected or not,
    creates no session (the heap keeps its size, the registry is
    untouched), but it opens the transport again and, when the open
    returns, requests the notification subscription again. [disconnect]
    forwards one close request to the transport in every state, also for
    a session that was never connected, and its result is the
    transport's answer. *)
Theorem connect_and_disconnect_are_unguarded (self : ref) (d : PranaDevice_obj)
    (timeout : pynum) (w : world) :
  nth_error (devices w) self = Some d ->
  (length (devices (snd (connect self timeout w))) = length (devices w) /\
   manager (snd (connect self timeout w)) = manager w /\
   (forall e1,
      respond (client_connect (pd_client d) timeout) (env w) = (Ok tt, e1) ->
      trace (snd (connect self timeout w))
        = trace w ++ [client_connect (pd_client d) timeout;
                      client_start_notify (pd_client d) CONTROL_RW_CHARACTERISTIC_UUID self])) /\
  disconnect self w =
    (fst (respond (client_disconnect (pd_client d)) (env w)),
     {| devices := devices w; manager := manager w; stdout := stdout w;
        env := snd (respond (client_disconnect (pd_client d)) (env w));
        trace := trace w ++ [client_disconnect (pd_client d)] |}).
Proof.
  intro Hd. split; [| now apply disconnect_run].
  rewrite (connect_run self d timeout w Hd). cbv zeta.
  destruct (respond (client_connect (pd_client d) timeout) (env w))
    as [[[] | x] e1] eqn:Hop; cbn; repeat split;
    try apply length_list_update; intros e1' He; congruence.
Qed.

End Lifecycle.

(** C5 as stated fails: the transport refuses the open of a fresh
    session, [connect] raises, and the flag is still clear. *)
Lemma connect_failure_flag_counterexample :
  option_map has_connect_attempts
    (nth_error (devices (fresh_session (Simulated.refusing [0%nat] []))) 0)
    = Some false /\
  fst (@PranaDevice.connect Simulated.transport 0%nat DEVICE_CONNECT_TIMEOUT
         (fresh_session (Simulated.refusing [0%nat] [])))
    = Raised (ExternalError "BleakError") /\
  option_map has_connect_attempts
    (nth_error
       (devices (snd (@PranaDevice.connect Simulated.transport 0%nat DEVICE_CONNECT_TIMEOUT
                        (fresh_session (Simulated.refusing [0%nat] []))))) 0)
    = Some false.
Proof. vm_compute. repeat split; reflexivity. Qed.

Lemma connect_sets_flag_after_open_witness :
  (fst (@PranaDevice.connect Simulated.transport 0%nat DEVICE_CONNECT_TIMEOUT
          (fresh_session (Simulated.refusing [0%nat] [])))
     = Raised (ExternalError "BleakError") /\
   nth_error
     (devices (snd (@PranaDevice.connect Simulated.transport 0%nat DEVICE_CONNECT_TIMEOUT
                      (fresh_session (Simulated.refusing [0%nat] []))))) 0
     = Some {| pd_address := session_address;
               pd_client := client_at 0%nat session_address;
               has_connect_attempts := false |}) /\
  nth_error
    (devices (snd (@PranaDevice.connect Simulated.transport 0%nat DEVICE_CONNECT_TIMEOUT
                     (fresh_session (Simulated.quiet []))))) 0
    = Some {| pd_address := session_address;
              pd_client := client_at 0%nat session_address;
              has_connect_attempts := true |}.
Proof.
  split.
  - destruct (proj1 (connect_sets_flag_after_open (ENV := Simulated.transport) 0%nat
                       {| pd_address := session_address;
                          pd_client := client_at 0%nat session_address;
                          has_connect_attempts := false |}
                       DEVICE_CONNECT_TIMEOUT
                       (fresh_session (Simulated.refusing [0%nat] [])) eq_refl)
                (ExternalError "BleakError") (Simulated.refusing [0%nat] []) eq_refl)
      as (H1 & H2 & _).
    split; [exact H1 | exact H2].
  - apply (proj2 (connect_sets_flag_after_open (ENV := Simulated.transport) 0%nat
                    {| pd_address := session_address;
                       pd_client := client_at 0%nat session_address;
                       has_connect_attempts := false |}
                    DEVICE_CONNECT_TIMEOUT
                    (fresh_session (Simulated.quiet [])) eq_refl)
             {| Simulated.adverts := []; Simulated.refuse_connect := [];
                Simulated.refuse_disconnect := []; Simulated.connected := [0%nat];
                Simulated.subscribed := []; Simulated.value := [] |} eq_refl).
Defined.

(** C6 as stated fails: [connect] on a connected session leaves the
    transport with a second subscription of the same handler, and
    [disconnect] on a session that was never connected sends a close
    request, which this transport refuses. *)
Lemma connect_twice_counterexample :
  (fst (@PranaDevice.is_connected Simulated.transport 0%nat
          (connected_once (Simulated.quiet []))) = Ok true /\
   Simulated.subscribed (env (connected_once (Simulated.quiet []))) = [(0%nat, 0%nat)] /\
   Simulated.subscribed
     (env (snd (@PranaDevice.connect Simulated.transport 0%nat DEVICE_CONNECT_TIMEOUT
                  (connected_once (Simulated.quiet [])))))
     = [(0%nat, 0%nat); (0%nat, 0%nat)] /\
   trace (snd (@PranaDevice.connect Simulated.transport 0%nat DEVICE_CONNECT_TIMEOUT
                 (connected_once (Simulated.quiet []))))
     = trace (connected_once (Simulated.quiet [])) ++
       [client_connect (client_at 0%nat session_address) DEVICE_CONNECT_TIMEOUT;
        client_start_notify (client_at 0%nat session_address)
          PranaDevice.CONTROL_RW_CHARACTERISTIC_UUID 0%nat]) /\
  (fst (@PranaDevice.is_connected Simulated.transport 0%nat
          (fresh_session (Simulated.refusing [] [0%nat]))) = Ok false /\
   fst (@PranaDevice.disconnect Simulated.transport 0%nat
          (fresh_session (Simulated.refusing [] [0%nat])))
     = Raised (ExternalError "BleakError") /\
   trace (snd (@PranaDevice.disconnect Simulated.transport 0%nat
                 (fresh_session (Simulated.refusing [] [0%nat]))))
     = [client_disconnect (client_at 0%nat session_address)]).
Proof. vm_compute. repeat split; reflexivity. Qed.

Lemma connect_and_disconnect_are_unguarded_witness :
  fst (@PranaDevice.disconnect Simulated.transport 0%nat
         (fresh_session (Simulated.quiet []))) = Ok tt /\
  trace (snd (@PranaDevice.disconnect Simulated.transport 0%nat
                (fresh_session (Simulated.quiet []))))
    = [client_disconnect (client_at 0%nat session_address)].
Proof.
  rewrite (proj2 (connect_and_disconnect_are_unguarded (ENV := Simulated.transport) 0%nat
                    {| pd_address := session_address;
                       pd_client := client_at 0%nat session_address;
                       has_connect_attempts := false |}
                    DEVICE_CONNECT_TIMEOUT (fresh_session (Simulated.quiet [])) eq_refl)).
  split; reflexivity.
Defined.

(** ** The registry *)

Section Registry.
Context {ENV : Environment}.
Import PranaDeviceManager.

Lemma env_after_app (cs cs' : list call) (e : env_state) :
  env_after (cs ++ cs') e = env_after cs' (env_after cs e).
Proof.
  revert e. induction cs as [| c cs IH]; intro e; [reflexivity |].
  cbn. apply IH.
Qed.

Lemma disconnect_each_cons (r : ref) (d : PranaDevice_obj) (refs : list ref)
    (w : world) :
  nth_error (devices w) r = Some d ->
  disconnect_each (r :: refs) w =
  match respond (client_disconnect (pd_client d)) (env w) with
  | (Ok _, e1) =>
      disconnect_each refs
        {| devices := devices w; manager := manager w; stdout := stdout w;
           env := e1; trace := trace w ++ [client_disconnect (pd_client d)] |}
  | (Raised x, e1) =>
      (Raised x,
       {| devices := devices w; manager := manager w; stdout := stdout w;
          env := e1; trace := trace w ++ [client_disconnect (pd_client d)] |})
  end.
Proof.
  intro Hd. cbn [disconnect_each]. unfold bind at 1.
  rewrite (disconnect_run r d w Hd).
  now destruct (respond (client_disconnect (pd_client d)) (env w)) as [[[] | x] e1].
Qed.

Lemma after_no_calls (w : world) : after_calls w (env w) [] = w.
Proof. destruct w. unfold after_calls. cbn. now rewrite app_nil_r. Qed.

Lemma closes_succeed_first (c : BleakClient) (closed : list BleakClient)
    (e : env_state) :
  closes_succeed (c :: closed) e ->
  fst (respond (client_disconnect c) e) = Ok tt /\
  closes_succeed closed (snd (respond (client_disconnect c) e)).
Proof.
  intro H. split.
  - exact (H [] c closed eq_refl).
  - intros before c' after E. apply (H (c :: before) c' after). now rewrite E.
Qed.

(** While the closes return, [disconnect_each] goes on to the end. *)
Lemma disconnect_each_all_closed (ds : list PranaDevice_obj) (refs : list ref)
    (clients : list BleakClient) :
  Forall2 (fun r c => exists d, nth_error ds r = Some d /\ pd_client d = c)
          refs clients ->
  forall w : world, devices w = ds ->
    closes_succeed clients (env w) ->
    disconnect_each refs w
    = (Ok tt,
       after_calls w (env_after (List.map client_disconnect clients) (env w))
         (List.map client_disconnect clients)).
Proof.
  induction 1 as [| r c refs clients (d & Hd & Hc) _ IH]; intros w Hw Hall.
  - cbn. now rewrite after_no_calls.
  - subst c. rewrite <- Hw in Hd. rewrite (disconnect_each_cons r d refs w Hd).
    destruct (closes_succeed_first _ _ _ Hall) as [Hfirst Hrest].
    cbn [List.map env_after].
    destruct (respond (client_disconnect (pd_client d)) (env w)) as [[[] | x] e1];
      [| discriminate].
    cbn [fst snd] in *.
    etransitivity;
      [exact (IH (after_calls w e1 [client_disconnect (pd_client d)]) Hw Hrest) |].
    unfold after_calls. cbn. now rewrite <- app_assoc.
Qed.

(** The first close that raises ends [disconnect_each] there. *)
Lemma disconnect_each_first_failure (ds : list PranaDevice_obj) (refs : list ref)
    (clients : list BleakClient) :
  Forall2 (fun r c => exists d, nth_error ds r = Some d /\ pd_client d = c)
          refs clients ->
  forall (w : world) (closed : list BleakClient) (c : BleakClient)
         (rest : list BleakClient) (x : exn),
    devices w = ds ->
    clients = closed ++ c :: rest ->
    closes_succeed closed (env w) ->
    fst (respond (client_disconnect c)
           (env_after (List.map client_disconnect closed) (env w))) = Raised x ->
    disconnect_each refs w
    = (Raised x,
       after_calls w (env_after (List.map client_disconnect (closed ++ [c])) (env w))
         (List.map client_disconnect (closed ++ [c]))).
Proof.
  induction 1 as [| r c0 refs clients (d & Hd & Hc) _ IH];
    intros w closed c rest x Hw Hsplit Hall Hfail.
  - destruct closed; discriminate.
  - subst c0. rewrite <- Hw in Hd. rewrite (disconnect_each_cons r d refs w Hd).
    destruct closed as [| c1 closed].
    + cbn in Hsplit. injection Hsplit as <- <-. cbn in Hfail. cbn [app List.map env_after].
      destruct (respond (client_disconnect (pd_client d)) (env w)) as [[[] | x0] e1];
        cbn [fst snd] in *; [discriminate |].
      now injection Hfail as ->.
    + cbn in Hsplit. injection Hsplit as <- Hsplit.
      destruct (closes_succeed_first _ _ _ Hall) as [Hfirst Hrest].
      cbn [app List.map env_after] in *.
      destruct (respond (client_disconnect (pd_client d)) (env w)) as [[[] | x0] e1];
        [| discriminate].
      cbn [fst snd] in *.
      etransitivity;
        [exact (IH (after_calls w e1 [client_disconnect (pd_client d)])
                  closed c rest x Hw Hsplit Hrest Hfail) |].
      unfold after_calls. cbn. now rewrite <- app_assoc.
Qed.

(** C4, as the code has it. [disconnect_all] closes the managed
    sessions one after another in the registry's order and absorbs
    nothing. When every close returns, all of them are requested, in
    order, and [disconnect_all] returns. When the closes before some
    session return and the close of that session raises, [disconnect_all]
    raises that exception there and then: the closes requested are those
    up to and including the failing one, and none of the sessions after
    it is attempted. Heap, registry and standard output are left as they
    were. *)
Theorem disconnect_all_stops_at_first_failure (w : world)
    (clients : list BleakClient) :
  sessions_clients w (dict_values (managed_devices (manager w))) clients ->
  (closes_succeed clients (env w) ->
   disconnect_all w
   = (Ok tt,
      after_calls w (env_after (List.map client_disconnect clients) (env w))
        (List.map client_disconnect clients))) /\
  (forall closed c rest x,
     clients = closed ++ c :: rest ->
     closes_succeed closed (env w) ->
     fst (respond (client_disconnect c)
            (env_after (List.map client_disconnect closed) (env w))) = Raised x ->
     disconnect_all w
     = (Raised x,
        after_calls w
          (env_after (List.map client_disconnect (closed ++ [c])) (env w))
          (List.map client_disconnect (closed ++ [c])))).
Proof.
  intro H. unfold disconnect_all, bind, get_manager. split.
  - intro Hall.
    exact (disconnect_each_all_closed (devices w) _ clients H w eq_refl Hall).
  - intros closed c rest x Hsplit Hall Hfail.
    exact (disconnect_each_first_failure (devices w) _ clients H w closed c rest x
             eq_refl Hsplit Hall Hfail).
Qed.

End Registry.

(** C4 as stated fails: with two managed sessions and a transport that
    refuses to close the first, [disconnect_all] raises at the first and
    never asks the transport to close the second. *)
Lemma disconnect_all_aborts_counterexample :
  dict_values (managed_devices (manager (two_sessions (Simulated.refusing [] [0%nat]))))
    = [0%nat; 1%nat] /\
  fst (@PranaDeviceManager.disconnect_all Simulated.transport
         (two_sessions (Simulated.refusing [] [0%nat])))
    = Raised (ExternalError "BleakError") /\
  trace (snd (@PranaDeviceManager.disconnect_all Simulated.transport
                (two_sessions (Simulated.refusing [] [0%nat]))))
    = trace (two_sessions (Simulated.refusing [] [0%nat])) ++
      [client_disconnect (client_at 0%nat session_address)] /\
  Simulated.connected
    (env (snd (@PranaDeviceManager.disconnect_all Simulated.transport
                 (two_sessions (Simulated.refusing [] [0%nat])))))
    = [1%nat; 0%nat].
Proof. vm_compute. repeat split; reflexivity. Qed.

Lemma disconnect_all_stops_at_first_failure_witness :
  @PranaDeviceManager.disconnect_all Simulated.transport
     (two_sessions (Simulated.quiet []))
  = (Ok tt,
     after_calls (two_sessions (Simulated.quiet []))
       (@env_after Simulated.transport
          (List.map client_disconnect
             [client_at 0%nat session_address; client_at 1%nat other_address])
          (env (two_sessions (Simulated.quiet []))))
       (List.map client_disconnect
          [client_at 0%nat session_address; client_at 1%nat other_address])) /\
  @PranaDeviceManager.disconnect_all Simulated.transport
     (two_sessions (Simulated.refusing [] [1%nat]))
  = (Raised (ExternalError "BleakError"),
     after_calls (two_sessions (Simulated.refusing [] [1%nat]))
       (@env_after Simulated.transport
          (List.map client_disconnect
             ([client_at 0%nat session_address] ++ [client_at 1%nat other_address]))
          (env (two_sessions (Simulated.refusing [] [1%nat]))))
       (List.map client_disconnect
          ([client_at 0%nat session_address] ++ [client_at 1%nat other_address]))).
Proof.
  split.
  - apply (proj1 (disconnect_all_stops_at_first_failure (ENV := Simulated.transport)
             (two_sessions (Simulated.quiet []))
             [client_at 0%nat session_address; client_at 1%nat other_address]
             ltac:(repeat constructor; eexists; split; reflexivity))).
    intros before c after E.
    destruct before as [| c0 [| c1 [| c2 before]]]; cbn in E.
    + injection E as <- _. reflexivity.
    + injection E as <- <- _. reflexivity.
    + injection E as _ _ E. discriminate E.
    + injection E as _ _ E. discriminate E.
  - apply (proj2 (disconnect_all_stops_at_first_failure (ENV := Simulated.transport)
             (two_sessions (Simulated.refusing [] [1%nat]))
             [client_at 0%nat session_address; client_at 1%nat other_address]
             ltac:(repeat constructor; eexists; split; reflexivity))
             [client_at 0%nat session_address] (client_at 1%nat other_address) []
             (ExternalError "BleakError") eq_refl).
    + intros before c after E.
      destruct before as [| c0 [| c1 before]]; cbn in E.
      * injection E as <- _. reflexivity.
      * injection E as _ E. discriminate E.
      * injection E as _ E. discriminate E.
    + reflexivity.
Defined.

(** ** One session per address *)

Section Dictionaries.
Variable V : Type.
Implicit Types (d : dict V) (k : py_str) (v : V).

Lemma dict_get_set_same d k v : dict_get (dict_set d k v) k = Some v.
Proof.
  induction d as [| [k' v'] d IH]; cbn.
  - now destruct (py_str_eq_dec k k).
  - destruct (py_str_eq_dec k k') as [E | E]; cbn.
    + now rewrite E; destruct (py_str_eq_dec k' k').
    + now destruct (py_str_eq_dec k k').
Qed.

Lemma dict_get_set_other d k k' v :
  k <> k' -> dict_get (dict_set d k v) k' = dict_get d k'.
Proof.
  intro Hk. induction d as [| [k0 v0] d IH]; cbn.
  - destruct (py_str_eq_dec k' k); congruence.
  - destruct (py_str_eq_dec k k0) as [E | E]; cbn.
    + subst k0. destruct (py_str_eq_dec k' k); congruence.
    + destruct (py_str_eq_dec k' k0); [reflexivity | exact IH].
Qed.

Lemma dict_set_absent d k v :
  dict_get d k = None -> dict_set d k v = d ++ [(k, v)].
Proof.
  induction d as [| [k' v'] d IH]; cbn; [reflexivity |].
  destruct (py_str_eq_dec k k'); [discriminate |].
  intro H. now rewrite (IH H).
Qed.

Lemma dict_get_absent_keys d k :
  dict_get d k = None -> ~ In k (dict_keys d).
Proof.
  induction d as [| [k' v'] d IH]; cbn; [tauto |].
  destruct (py_str_eq_dec k k') as [E | E]; [discriminate |].
  intros H [Hk | Hk]; [congruence | now apply IH].
Qed.

Lemma dict_get_in_values d k v :
  dict_get d k = Some v -> In v (dict_values d).
Proof.
  induction d as [| [k' v'] d IH]; cbn; [discriminate |].
  destruct (py_str_eq_dec k k'); intro H; [left; congruence | right; auto].
Qed.

Lemma dict_get_present_keys d k v :
  dict_get d k = Some v -> In k (dict_keys d).
Proof.
  induction d as [| [k' v'] d IH]; cbn; [discriminate |].
  destruct (py_str_eq_dec k k'); intro H; [left; congruence | right; auto].
Qed.

Lemma dict_value_has_key d v :
  NoDup (dict_keys d) -> In v (dict_values d) -> exists k, dict_get d k = Some v.
Proof.
  induction d as [| [k' v'] d IH]; cbn; [tauto |].
  intros Hnd [E | Hin]; inversion Hnd as [| ? ? Hk' Hnd']; subst.
  - exists k'. now destruct (py_str_eq_dec k' k').
  - destruct (IH Hnd' Hin) as [k Hk]. exists k.
    destruct (py_str_eq_dec k k') as [E | E]; [| exact Hk].
    subst k'. exfalso. apply Hk'. now apply dict_get_present_keys with (v := v).
Qed.

End Dictionaries.

Create HintDb registry.

Section Preservation.
Context {ENV : Environment}.

Lemma sessions_kept_refl (w : world) : sessions_kept w w.
Proof. intros r d H. now exists d. Qed.

Lemma sessions_kept_trans (w1 w2 w3 : world) :
  sessions_kept w1 w2 -> sessions_kept w2 w3 -> sessions_kept w1 w3.
Proof.
  intros H12 H23 r d H.
  destruct (H12 r d H) as (d2 & H2 & Ha2 & Hc2).
  destruct (H23 r d2 H2) as (d3 & H3 & Ha3 & Hc3).
  exists d3. repeat split; congruence.
Qed.

Lemma keeps_same_world {A : Type} (m : M A) :
  (forall w, snd (m w) = w) -> keeps_registry m.
Proof.
  intros H w. rewrite H. split; [reflexivity | apply sessions_kept_refl].
Qed.

Lemma keeps_ret {A : Type} (a : A) : keeps_registry (ret a).
Proof. now apply keeps_same_world. Qed.

Lemma keeps_raise {A : Type} (e : exn) : keeps_registry (@raise ENV A e).
Proof. now apply keeps_same_world. Qed.

Lemma keeps_lift {A : Type} (o : outcome A) : keeps_registry (lift o).
Proof. now apply keeps_same_world. Qed.

Lemma keeps_get_manager : keeps_registry get_manager.
Proof. now apply keeps_same_world. Qed.

Lemma keeps_get_devices : keeps_registry get_devices.
Proof. now apply keeps_same_world. Qed.

Lemma keeps_deref (self : ref) : keeps_registry (deref self).
Proof.
  apply keeps_same_world. intro w. unfold deref.
  now destruct (nth_error (devices w) self).
Qed.

Lemma keeps_await (c : call) : keeps_registry (await c).
Proof.
  intro w. unfold await. destruct (respond c (env w)). cbn.
  split; [reflexivity |]. intros r d H. now exists d.
Qed.

Lemma keeps_print (p : printed) : keeps_registry (print p).
Proof.
  intro w. cbn. split; [reflexivity |]. intros r d H. now exists d.
Qed.

Lemma keeps_alloc (mk : ref -> PranaDevice_obj) : keeps_registry (alloc mk).
Proof.
  intro w. cbn. split; [reflexivity |]. intros r d H. exists d. cbn.
  split; [| auto]. rewrite nth_error_app1; [exact H |].
  apply nth_error_Some. congruence.
Qed.

Lemma keeps_bind {A B : Type} (m : M A) (f : A -> M B) :
  keeps_registry m -> (forall a, keeps_registry (f a)) -> keeps_registry (bind m f).
Proof.
  intros Hm Hf w. unfold bind. specialize (Hm w).
  destruct (m w) as [[a | e] w1]; cbn [snd] in *; [| exact Hm].
  destruct Hm as [Hm1 Hs1]. destruct (Hf a w1) as [Hm2 Hs2].
  split; [congruence | now apply sessions_kept_trans with (w2 := w1)].
Qed.

Lemma keeps_set_has_connect_attempts (self : ref) (b : bool) :
  keeps_registry (PranaDevice.set_has_connect_attempts self b).
Proof.
  intro w. unfold PranaDevice.set_has_connect_attempts, bind, deref,
    get_devices, set_devices.
  destruct (nth_error (devices w) self) as [d |] eqn:Hd; cbn;
    [| split; [reflexivity | apply sessions_kept_refl]].
  split; [reflexivity |]. intros r d0 H. cbn.
  destruct (Nat.eq_dec self r) as [-> | Hne].
  - rewrite (nth_error_list_update_same (devices w) r d _ Hd).
    eexists. split; [reflexivity |]. cbn. split; congruence.
  - rewrite (nth_error_list_update_other (devices w) self r _ Hne).
    now exists d0.
Qed.

Hint Resolve keeps_ret keeps_raise keeps_lift keeps_get_manager keeps_get_devices
  keeps_deref keeps_await keeps_print keeps_alloc
  keeps_set_has_connect_attempts : registry.

(** A body built from such steps is one itself. *)
Ltac keeps :=
  repeat first
    [ solve [auto with registry]
    | apply keeps_bind; [| intro]
    | match goal with
      | |- keeps_registry (await ?c) => exact (keeps_await c)
      | |- keeps_registry (if ?b then _ else _) => destruct b
      | |- keeps_registry (match ?x with _ => _ end) => destruct x
      end ].

Lemma keeps_init (tgt : target) (l : option event_loop) (iface : py_str) :
  keeps_registry (PranaDevice.__init__ tgt l iface).
Proof. unfold PranaDevice.__init__. keeps. Qed.

Lemma keeps_client_of (self : ref) : keeps_registry (PranaDevice.client_of self).
Proof. unfold PranaDevice.client_of. keeps. Qed.

Lemma keeps_is_connected (self : ref) : keeps_registry (PranaDevice.is_connected self).
Proof. unfold PranaDevice.is_connected. keeps. Qed.

Hint Resolve keeps_init keeps_client_of keeps_is_connected : registry.

Lemma keeps_verify_connected (self : ref) :
  keeps_registry (PranaDevice.__verify_connected self).
Proof. unfold PranaDevice.__verify_connected. keeps. Qed.

Lemma keeps_parse_state (self : ref) (data : bytes) :
  keeps_registry (PranaDevice.__parse_state self data).
Proof. unfold PranaDevice.__parse_state. keeps. Qed.

Lemma keeps_session_connect (self : ref) (timeout : pynum) :
  keeps_registry (PranaDevice.connect self timeout).
Proof. unfold PranaDevice.connect. keeps. Qed.

Lemma keeps_session_disconnect (self : ref) :
  keeps_registry (PranaDevice.disconnect self).
Proof. unfold PranaDevice.disconnect. keeps. Qed.

Lemma keeps_send_command (self : ref) (command : bytes) (expect_reply : bool) :
  keeps_registry (PranaDevice._send_command self command expect_reply).
Proof. unfold PranaDevice._send_command. keeps. Qed.

Hint Resolve keeps_verify_connected keeps_parse_state keeps_session_connect
  keeps_session_disconnect keeps_send_command : registry.

Lemma keeps_disconnect_each (refs : list ref) :
  keeps_registry (PranaDeviceManager.disconnect_each refs).
Proof.
  induction refs as [| r refs IH]; cbn [PranaDeviceManager.disconnect_each]; keeps.
Qed.

Hint Resolve keeps_disconnect_each : registry.

(** Every operation but the registry's [connect] leaves the registry
    as it is. *)
Lemma keeps_perform (o : operation) :
  (forall tgt t, o <> op_connect tgt t) -> keeps_registry (perform o).
Proof.
  intro Hne. destruct o; cbn [perform];
    try (exfalso; eapply Hne; reflexivity);
    unfold PranaDeviceManager.discover, PranaDeviceManager.disconnect_all,
      PranaDevice.set_high_speed, PranaDevice.set_night_mode,
      PranaDevice.turn_off, PranaDevice.read_state,
      PranaDevice.notification_handler;
    keeps.
Qed.

Lemma registry_ok_kept (w w' : world) :
  registry_ok w -> manager w' = manager w -> sessions_kept w w' -> registry_ok w'.
Proof.
  intros [Hk Hv Hl] Hm Hs. split; rewrite Hm; auto.
  intros a r Hget. destruct (Hl a r Hget) as (d & Hd & Ha).
  destruct (Hs r d Hd) as (d' & Hd' & Ha' & _).
  exists d'. split; congruence.
Qed.

Lemma registered_kept (w : world) (addr : py_str) :
  dict_get (managed_devices (manager w)) addr = None ->
  registry_kept w (registered w addr) /\ sessions_kept w (registered w addr).
Proof.
  intro Hnone. split.
  - intros a r Hget. cbn. rewrite dict_get_set_other; [exact Hget | congruence].
  - intros r d H. exists d. split; [| auto]. cbn.
    rewrite nth_error_app1; [exact H |]. apply nth_error_Some. congruence.
Qed.

Lemma registered_ok (w : world) (addr : py_str) :
  registry_ok w ->
  dict_get (managed_devices (manager w)) addr = None ->
  registry_ok (registered w addr).
Proof.
  intros [Hk Hv Hl] Hnone. split; cbn.
  - rewrite (dict_set_absent _ _ _ _ Hnone). unfold dict_keys.
    rewrite map_app. cbn. apply NoDup_app; [exact Hk | repeat constructor; auto |].
    intros k Hin [<- | []]. now apply (dict_get_absent_keys _ _ _ Hnone).
  - rewrite (dict_set_absent _ _ _ _ Hnone). unfold dict_values.
    rewrite map_app. cbn. apply NoDup_app; [exact Hv | repeat constructor; auto |].
    intros r Hin [<- | []].
    destruct (dict_value_has_key _ _ _ Hk Hin) as [k Hget].
    destruct (Hl k _ Hget) as (d & Hd & _).
    assert (Hlt : (length (devices w) < length (devices w))%nat)
      by (apply nth_error_Some; congruence).
    lia.
  - intros a r Hget. destruct (py_str_eq_dec addr a) as [<- | Hne].
    + rewrite dict_get_set_same in Hget. injection Hget as <-.
      eexists. split.
      * rewrite nth_error_app2 by lia. rewrite Nat.sub_diag. reflexivity.
      * reflexivity.
    + rewrite dict_get_set_other in Hget by exact Hne.
      destruct (Hl a r Hget) as (d & Hd & Ha). exists d. split; [| exact Ha].
      rewrite nth_error_app1; [exact Hd |]. apply nth_error_Some. congruence.
Qed.

End Preservation.

Section RegistryIdentity.
Context {ENV : Environment}.
Import PranaDeviceManager.

(** The registry's [connect]: the session filed under the address if
    there is one, else a new one, filed before it is connected. *)
Lemma manager_connect_run (tgt : target) (addr : py_str) (timeout : pynum)
    (w : world) :
  __addr_for_target tgt = Ok addr ->
  connect tgt timeout w =
  match dict_get (managed_devices (manager w)) addr with
  | Some r => (PranaDevice.connect r timeout ;; ret r) w
  | None =>
      (PranaDevice.connect (length (devices w)) timeout ;; ret (length (devices w)))
        (registered w addr)
  end.
Proof.
  intro Ha. unfold connect, bind at 1, lift. rewrite Ha.
  unfold bind at 1, get_manager.
  destruct (dict_get (managed_devices (manager w)) addr) as [r |]; reflexivity.
Qed.

Lemma manager_connect_invalid (tgt : target) (e : exn) (timeout : pynum) (w : world) :
  __addr_for_target tgt = Raised e -> connect tgt timeout w = (Raised e, w).
Proof. intro Ha. unfold connect, bind, lift. now rewrite Ha. Qed.

Lemma then_ret_result {A : Type} (m : M A) (r r' : ref) (w : world) :
  fst ((m ;; ret r) w) = Ok r' -> r' = r.
Proof.
  unfold bind, ret. destruct (m w) as [[a | e] w1]; cbn; congruence.
Qed.

Lemma then_ret_world {A B : Type} (m : M A) (r : B) (w : world) :
  snd ((m ;; ret r) w) = snd (m w).
Proof.
  unfold bind, ret. now destruct (m w) as [[a | e] w1].
Qed.

(** What [connect] returns is what the registry holds for the address
    afterwards, and what it held before if it held anything. *)
Lemma manager_connect_returns (tgt : target) (addr : py_str) (timeout : pynum)
    (w : world) (r : ref) :
  __addr_for_target tgt = Ok addr ->
  fst (connect tgt timeout w) = Ok r ->
  dict_get (managed_devices (manager (snd (connect tgt timeout w)))) addr = Some r /\
  (forall r0, dict_get (managed_devices (manager w)) addr = Some r0 -> r = r0).
Proof.
  intros Ha. rewrite (manager_connect_run tgt addr timeout w Ha).
  destruct (dict_get (managed_devices (manager w)) addr) as [r0 |] eqn:Hget;
    intro Hr; apply then_ret_result in Hr; subst r; rewrite then_ret_world.
  - rewrite (proj1 (keeps_session_connect r0 timeout w)).
    split; [exact Hget | congruence].
  - rewrite (proj1 (keeps_session_connect _ timeout (registered w addr))).
    split; [apply dict_get_set_same | discriminate].
Qed.

Lemma manager_connect_kept (tgt : target) (timeout : pynum) (w : world) :
  registry_kept w (snd (connect tgt timeout w)) /\
  (registry_ok w -> registry_ok (snd (connect tgt timeout w))).
Proof.
  destruct (__addr_for_target tgt) as [addr | e] eqn:Ha.
  - rewrite (manager_connect_run tgt addr timeout w Ha).
    destruct (dict_get (managed_devices (manager w)) addr) as [r0 |] eqn:Hget;
      rewrite then_ret_world.
    + destruct (keeps_session_connect r0 timeout w) as [Hm Hs]. split.
      * intros a r H. now rewrite Hm.
      * intro Hok. now apply registry_ok_kept with (w := w).
    + destruct (keeps_session_connect (length (devices w)) timeout (registered w addr))
        as [Hm Hs].
      destruct (registered_kept w addr Hget) as [Hrk _]. split.
      * intros a r H. rewrite Hm. now apply Hrk.
      * intro Hok. apply registry_ok_kept with (w := registered w addr); auto.
        now apply registered_ok.
  - rewrite (manager_connect_invalid tgt e timeout w Ha). cbn.
    split; [now intros a r H | auto].
Qed.

Lemma perform_kept (o : operation) (w : world) :
  registry_kept w (snd (perform o w)) /\
  (registry_ok w -> registry_ok (snd (perform o w))).
Proof.
  destruct o as [t | tgt t | | | | | | | | | |];
    try (match goal with
         | |- context [perform ?o _] =>
             assert (Hk : keeps_registry (perform o))
               by (apply keeps_perform; discriminate);
             destruct (Hk w) as [Hm Hs]; split;
             [ intros a r H; now rewrite Hm
             | intro Hok; now apply registry_ok_kept with (w := w) ]
         end).
  cbn [perform]. rewrite then_ret_world. apply manager_connect_kept.
Qed.

End RegistryIdentity.

Section OneSessionPerAddress.
Context {ENV : Environment}.
Import PranaDeviceManager.

Lemma perform_all_kept (os : list operation) (w : world) :
  registry_kept w (perform_all os w) /\
  (registry_ok w -> registry_ok (perform_all os w)).
Proof.
  revert w. induction os as [| o os IH]; intro w; cbn [perform_all].
  - split; [now intros a r H | auto].
  - destruct (perform_kept o w) as [Hk Hok].
    destruct (IH (snd (perform o w))) as [Hk' Hok'].
    split; [intros a r H; now apply Hk', Hk | auto].
Qed.

Lemma initial_world_ok (iface : py_str) (l : option event_loop) (e : env_state) :
  registry_ok (initial_world iface l e).
Proof.
  split; cbn; try constructor. discriminate.
Qed.

(** C8. Two [connect] calls of the registry that resolve to the same
    address and return, with any operations in between, return the
    same session (the same reference). From its creation on, and
    through every operation, the registry files at most one session
    under an address and no session under two, each a live session of
    that address, and an address once filed keeps its session. *)
Theorem registry_connect_same_session
    (tgt1 tgt2 : target) (addr : py_str) (t1 t2 : pynum)
    (between : list operation) (w : world) (r1 r2 : ref) :
  __addr_for_target tgt1 = Ok addr ->
  __addr_for_target tgt2 = Ok addr ->
  fst (connect tgt1 t1 w) = Ok r1 ->
  fst (connect tgt2 t2 (perform_all between (snd (connect tgt1 t1 w)))) = Ok r2 ->
  r1 = r2 /\
  (forall iface l e, registry_ok (initial_world iface l e)) /\
  (forall o w0, registry_ok w0 -> registry_ok (snd (perform o w0))) /\
  (forall o w0, registry_kept w0 (snd (perform o w0))).
Proof.
  intros Ha1 Ha2 H1 H2. split; [| split; [| split]].
  - destruct (manager_connect_returns tgt1 addr t1 w r1 Ha1 H1) as [Hfiled _].
    apply (proj1 (perform_all_kept between _)) in Hfiled.
    destruct (manager_connect_returns tgt2 addr t2 _ r2 Ha2 H2) as [_ Hsame].
    symmetry. now apply Hsame.
  - apply initial_world_ok.
  - intros o w0. apply perform_kept.
  - intros o w0. apply perform_kept.
Qed.

End OneSessionPerAddress.

Lemma registry_connect_same_session_witness :
  fst (@PranaDeviceManager.connect Simulated.transport
         (TargetStr session_address) MANAGER_CONNECT_TIMEOUT
         (Simulated.start (Simulated.quiet sample_payload))) = Ok 0%nat /\
  fst (@PranaDeviceManager.connect Simulated.transport
         (TargetInfo (PranaDeviceManager.device_info living_room))
         (PyFloat FloatLiterals.zero_point_six)
         (perform_all
            [op_connect (TargetStr other_address) MANAGER_CONNECT_TIMEOUT;
             op_read_state 0%nat; op_disconnect_all]
            (snd (@PranaDeviceManager.connect Simulated.transport
                    (TargetStr session_address) MANAGER_CONNECT_TIMEOUT
                    (Simulated.start (Simulated.quiet sample_payload)))))) = Ok 0%nat /\
  0%nat = 0%nat.
Proof.
  split; [reflexivity |]. split; [reflexivity |].
  apply (registry_connect_same_session (ENV := Simulated.transport)
           (TargetStr session_address)
           (TargetInfo (PranaDeviceManager.device_info living_room))
           session_address MANAGER_CONNECT_TIMEOUT (PyFloat FloatLiterals.zero_point_six)
           [op_connect (TargetStr other_address) MANAGER_CONNECT_TIMEOUT;
            op_read_state 0%nat; op_disconnect_all]
           (Simulated.start (Simulated.quiet sample_payload)) 0%nat 0%nat);
    reflexivity.
Defined.

(** * Further properties of the driver *)

(** ** The codec, case by case *)

Section CodecCases.
Context {ENV : Environment}.
Import PranaDevice.

Lemma byte_val_range (b : byte) : 0 <= byte_val b <= 255.
Proof. destruct b; vm_compute; split; discriminate. Qed.

Lemma byte_at_speed_range (data : bytes) (i : nat) : 0 <= byte_at data i / 10 <= 25.
Proof.
  unfold byte_at. pose proof (byte_val_range (nth i data x00)) as H.
  split; [apply Z.div_pos; lia |].
  assert (byte_val (nth i data x00) / 10 < 26)
    by (apply Z.div_lt_upper_bound; lia).
  lia.
Qed.

(** [__parse_state], with the marker test and the reads spelled out. *)
Lemma parse_state_run (self : ref) (data : bytes) (w : world) :
  __parse_state self data w =
  if bytes_eqb (firstn 2 data) STATE_MSG_PREFIX
  then match read_fields data with
       | Ok s => (Ok (Some s), after_output w [PrintBytes data])
       | Raised x => (Raised x, after_output w [PrintBytes data])
       end
  else (Ok None, w).
Proof.
  unfold __parse_state.
  destruct (bytes_eqb (firstn 2 data) STATE_MSG_PREFIX); [| reflexivity].
  cbn [negb]. unfold bind, lift, ret. cbn [print].
  now destruct (read_fields data).
Qed.

Lemma read_fields_cases (data : bytes) :
  ((43 <= length data)%nat /\ exists s, read_fields data = Ok s) \/
  ((length data <= 42)%nat /\ read_fields data = Raised IndexError).
Proof.
  destruct (Nat.le_gt_cases 43 (length data)) as [H | H].
  - left. split; [exact H |]. eexists. now apply read_fields_long.
  - right. split; [lia |]. apply read_fields_short. lia.
Qed.

(** X1. The three results of [__parse_state] partition the payloads:
    [None] exactly for a payload without the marker, a state exactly for
    the marker and 43 bytes or more, [IndexError] exactly for the marker
    and 42 bytes or fewer; no other exception occurs. A decoded speed
    lies between 0 and 25 (the byte is not clamped to the 0..10 scale). *)
Theorem parse_state_partition (self : ref) (data : bytes) (w : world) :
  (fst (__parse_state self data w) = Ok None <-> firstn 2 data <> [xbe; xef]) /\
  ((exists s, fst (__parse_state self data w) = Ok (Some s)) <->
     firstn 2 data = [xbe; xef] /\ (43 <= length data)%nat) /\
  ((exists x, fst (__parse_state self data w) = Raised x) <->
     firstn 2 data = [xbe; xef] /\ (length data <= 42)%nat) /\
  (forall x, fst (__parse_state self data w) = Raised x -> x = IndexError) /\
  (forall s, fst (__parse_state self data w) = Ok (Some s) ->
     0 <= speed_locked s <= 25 /\ 0 <= speed_in s <= 25 /\ 0 <= speed_out s <= 25).
Proof.
  assert (Hcases :
    (firstn 2 data <> [xbe; xef] /\ fst (__parse_state self data w) = Ok None) \/
    (firstn 2 data = [xbe; xef] /\ (43 <= length data)%nat /\
       fst (__parse_state self data w) = Ok (Some
         {| speed_locked := byte_at data 26 / 10;
            speed_in := byte_at data 30 / 10;
            speed_out := byte_at data 34 / 10;
            auto_mode := int_truthy (byte_at data 20);
            night_mode := int_truthy (byte_at data 16);
            flows_locked := int_truthy (byte_at data 22);
            is_on := int_truthy (byte_at data 10);
            mini_heating_enabled := int_truthy (byte_at data 14);
            winter_mode_enabled := int_truthy (byte_at data 42);
            is_input_fan_on := int_truthy (byte_at data 28);
            is_output_fan_on := int_truthy (byte_at data 32) |})) \/
    (firstn 2 data = [xbe; xef] /\ (length data <= 42)%nat /\
       fst (__parse_state self data w) = Raised IndexError)).
  { rewrite parse_state_run. unfold STATE_MSG_PREFIX.
    destruct (bytes_eqb (firstn 2 data) [xbe; xef]) eqn:Hm.
    - apply bytes_eqb_true in Hm. right.
      destruct (Nat.le_gt_cases 43 (length data)) as [H | H].
      + left. now rewrite (read_fields_long data H).
      + right. rewrite (read_fields_short data) by lia. repeat split; auto; lia.
    - apply bytes_eqb_false in Hm. now left. }
  destruct Hcases as [[Hm Hr] | [(Hm & Hlen & Hr) | (Hm & Hlen & Hr)]]; rewrite Hr.
  - split; [split; [intros _; exact Hm | reflexivity] |].
    split; [split; [intros [s H]; discriminate | intros [H _]; contradiction] |].
    split; [split; [intros [x H]; discriminate | intros [H _]; contradiction] |].
    split; [intros x H; discriminate | intros s H; discriminate].
  - split; [split; [discriminate | intro H; contradiction] |].
    split; [split; [intros _; split; assumption | intros _; eauto] |].
    split; [split; [intros [x H]; discriminate | intros [_ H]; lia] |].
    split; [intros x H; discriminate |].
    intros s H. injection H as <-. cbn. repeat split; apply byte_at_speed_range.
  - split; [split; [discriminate | intro H; contradiction] |].
    split; [split; [intros [s H]; discriminate | intros [_ H]; lia] |].
    split; [split; [intros _; split; assumption | intros _; eauto] |].
    split; [intros x H; congruence | intros s H; discriminate].
Qed.

End CodecCases.

Lemma parse_state_partition_witness :
  exists s, fst (@PranaDevice.__parse_state Simulated.transport 0%nat sample_payload
                   (Simulated.start (Simulated.quiet []))) = Ok (Some s).
Proof.
  apply (parse_state_partition (ENV := Simulated.transport) 0%nat sample_payload
           (Simulated.start (Simulated.quiet []))).
  split; [reflexivity | vm_compute; lia].
Defined.

Section CodecUses.
Context {ENV : Environment}.
Import PranaDevice.

(** X2. Every command of the catalog is itself a marker-prefixed
    payload of 4 or 9 bytes, so decoding a command (an echo of what was
    written) raises [IndexError]: it is not taken for "no state". The
    sixteen commands are pairwise different. *)
Theorem catalog_command_echo_raises (cmd : bytes) :
  In cmd command_catalog ->
  firstn 2 cmd = STATE_MSG_PREFIX /\
  (length cmd = 4 \/ length cmd = 9)%nat /\
  (forall self w,
     __parse_state self cmd w = (Raised IndexError, after_output w [PrintBytes cmd])) /\
  NoDup command_catalog.
Proof.
  intro Hin.
  assert (H : firstn 2 cmd = [xbe; xef] /\ (length cmd = 4 \/ length cmd = 9)%nat).
  { cbn in Hin. repeat (destruct Hin as [<- | Hin]; [split; [reflexivity | cbn; auto] |]).
    contradiction. }
  destruct H as [Hm Hlen]. split; [exact Hm |]. split; [exact Hlen |]. split.
  - intros self w. rewrite parse_state_run. unfold STATE_MSG_PREFIX.
    rewrite (proj2 (bytes_eqb_true _ _) Hm).
    rewrite read_fields_short by lia. reflexivity.
  - vm_compute. repeat (constructor; [cbn; intuition discriminate |]). constructor.
Qed.

(** X3. [notification_handler] prints what it decodes and calls
    nothing: for a payload without the marker it prints [None]; for the
    marker and 43 bytes or more it prints the payload, then the state;
    for the marker and a shorter payload it prints the payload and
    [IndexError] goes to whoever delivered the notification. *)
Theorem notification_handler_prints (self : ref) (sender : Z) (data : bytes) (w : world) :
  (firstn 2 data <> [xbe; xef] ->
   notification_handler self sender data w
     = (Ok tt, after_output w [PrintState None])) /\
  (firstn 2 data = [xbe; xef] -> (43 <= length data)%nat ->
   exists s, read_fields data = Ok s /\
     notification_handler self sender data w
       = (Ok tt, after_output w [PrintBytes data; PrintState (Some s)])) /\
  (firstn 2 data = [xbe; xef] -> (length data <= 42)%nat ->
   notification_handler self sender data w
     = (Raised IndexError, after_output w [PrintBytes data])).
Proof.
  unfold notification_handler, bind. rewrite parse_state_run. unfold STATE_MSG_PREFIX.
  split; [| split].
  - intro Hm. now rewrite (proj2 (bytes_eqb_false _ _) Hm).
  - intros Hm Hlen. rewrite (proj2 (bytes_eqb_true _ _) Hm).
    rewrite (read_fields_long data Hlen). eexists. split; [reflexivity |].
    unfold print, after_output. cbn. now rewrite <- app_assoc.
  - intros Hm Hlen. rewrite (proj2 (bytes_eqb_true _ _) Hm).
    now rewrite (read_fields_short data Hlen).
Qed.

End CodecUses.

Lemma catalog_command_echo_raises_witness :
  fst (@PranaDevice.__parse_state Simulated.transport 0%nat PranaDevice.Cmd.READ_STATE
         (Simulated.start (Simulated.quiet []))) = Raised IndexError.
Proof.
  rewrite (proj1 (proj2 (proj2
             (catalog_command_echo_raises (ENV := Simulated.transport)
                PranaDevice.Cmd.READ_STATE ltac:(vm_compute; tauto))))).
  reflexivity.
Defined.

Lemma notification_handler_prints_witness :
  exists s,
    @PranaDevice.notification_handler Simulated.transport 0%nat 12 sample_payload
       (Simulated.start (Simulated.quiet []))
    = (Ok tt, after_output (Simulated.start (Simulated.quiet []))
                [PrintBytes sample_payload; PrintState (Some s)]).
Proof.
  destruct (proj1 (proj2 (notification_handler_prints (ENV := Simulated.transport)
                            0%nat 12 sample_payload (Simulated.start (Simulated.quiet []))))
              eq_refl ltac:(vm_compute; lia)) as (s & _ & Hs).
  exists s. exact Hs.
Defined.

(** ** Commands on a connected session *)

Section SessionCommands.
Context {ENV : Environment}.
Import PranaDevice.

Lemma is_connected_queries (self : ref) (d : PranaDevice_obj) (w : world) :
  nth_error (devices w) self = Some d ->
  has_connect_attempts d = true ->
  is_connected self w =
  (fst (respond (client_is_connected (pd_client d)) (env w)),
   after_calls w (snd (respond (client_is_connected (pd_client d)) (env w)))
     [client_is_connected (pd_client d)]).
Proof.
  intros Hd Hf. unfold is_connected, bind. rewrite (deref_live self d w Hd), Hf.
  cbn [negb]. unfold await, after_calls.
  now destruct (respond (client_is_connected (pd_client d)) (env w)).
Qed.

Lemma is_connected_unattempted (self : ref) (d : PranaDevice_obj) (w : world) :
  nth_error (devices w) self = Some d ->
  has_connect_attempts d = false ->
  is_connected self w = (Ok false, w).
Proof.
  intros Hd Hf. unfold is_connected, bind. now rewrite (deref_live self d w Hd), Hf.
Qed.

Lemma verify_connected_passes (self : ref) (d : PranaDevice_obj) (w : world)
    (e0 : env_state) :
  nth_error (devices w) self = Some d ->
  has_connect_attempts d = true ->
  respond (client_is_connected (pd_client d)) (env w) = (Ok true, e0) ->
  __verify_connected self w
  = (Ok tt, after_calls w e0 [client_is_connected (pd_client d)]).
Proof.
  intros Hd Hf Hq. unfold __verify_connected, bind.
  rewrite (is_connected_queries self d w Hd Hf), Hq. reflexivity.
Qed.

Lemma send_command_answered (self : ref) (d : PranaDevice_obj) (command : bytes)
    (expect_reply : bool) (w : world) (e3 : env_state) (data : bytes) :
  nth_error (devices w) self = Some d ->
  answers_exchange (pd_client d) command (env w) e3 data ->
  _send_command self command expect_reply w
  = (Ok (if expect_reply then Some data else None),
     after_calls w e3 (exchange (pd_client d) command)).
Proof.
  intros Hd (e1 & e2 & Hw & Hs & Hr).
  rewrite (send_command_run self d command expect_reply w Hd). cbv zeta.
  now rewrite Hw, Hs, Hr.
Qed.

Lemma after_calls_twice (w : world) (e e' : env_state) (cs cs' : list call) :
  after_calls (after_calls w e cs) e' cs' = after_calls w e' (cs ++ cs').
Proof. unfold after_calls. cbn. now rewrite app_assoc. Qed.

(** X4. On a session that is connected (the flag set, the transport
    answering the status query with [True]) and whose exchange is
    answered, [set_high_speed], [set_night_mode] and [turn_off] make one
    status query and one exchange, each with its own command bytes
    ([BE EF 04 07], [BE EF 04 06], [BE EF 04 01]), return nothing and drop
    the bytes read: the heap, the registry and standard output are
    untouched. *)
Theorem control_commands_when_connected (self : ref) (d : PranaDevice_obj)
    (w : world) (e0 : env_state) :
  nth_error (devices w) self = Some d ->
  has_connect_attempts d = true ->
  respond (client_is_connected (pd_client d)) (env w) = (Ok true, e0) ->
  (forall e3 data,
     answers_exchange (pd_client d) [xbe; xef; x04; x07] e0 e3 data ->
     set_high_speed self w
     = (Ok tt, after_calls w e3
                 (client_is_connected (pd_client d)
                  :: exchange (pd_client d) [xbe; xef; x04; x07]))) /\
  (forall e3 data,
     answers_exchange (pd_client d) [xbe; xef; x04; x06] e0 e3 data ->
     set_night_mode self w
     = (Ok tt, after_calls w e3
                 (client_is_connected (pd_client d)
                  :: exchange (pd_client d) [xbe; xef; x04; x06]))) /\
  (forall e3 data,
     answers_exchange (pd_client d) [xbe; xef; x04; x01] e0 e3 data ->
     turn_off self w
     = (Ok tt, after_calls w e3
                 (client_is_connected (pd_client d)
                  :: exchange (pd_client d) [xbe; xef; x04; x01]))).
Proof.
  intros Hd Hf Hq.
  pose proof (verify_connected_passes self d w e0 Hd Hf Hq) as Hv.
  repeat split; intros e3 data Hx;
    unfold set_high_speed, set_night_mode, turn_off, bind; rewrite Hv;
    match goal with
    | |- context [_send_command self ?c false ?w1] =>
        rewrite (send_command_answered self d c false w1 e3 data Hd Hx)
    end;
    unfold ret; now rewrite after_calls_twice.
Qed.

(** X5. On a connected session whose exchange is answered with [data],
    [read_state] makes one status query and one exchange with the
    read-state request ([BE EF 05 01 00 00 00 00 5A]) and returns what
    [__parse_state] makes of [data]: so [None] for a reply without the
    marker, and [IndexError] for a marker-prefixed reply of 42 bytes or
    fewer. *)
Theorem read_state_decodes_reply (self : ref) (d : PranaDevice_obj)
    (w : world) (e0 e3 : env_state) (data : bytes) :
  nth_error (devices w) self = Some d ->
  has_connect_attempts d = true ->
  respond (client_is_connected (pd_client d)) (env w) = (Ok true, e0) ->
  answers_exchange (pd_client d) [xbe; xef; x05; x01; x00; x00; x00; x00; x5a] e0 e3 data ->
  read_state self w
  = __parse_state self data
      (after_calls w e3
         (client_is_connected (pd_client d)
          :: exchange (pd_client d) [xbe; xef; x05; x01; x00; x00; x00; x00; x5a])) /\
  (firstn 2 data <> [xbe; xef] -> fst (read_state self w) = Ok None) /\
  (firstn 2 data = [xbe; xef] -> (length data <= 42)%nat ->
   fst (read_state self w) = Raised IndexError).
Proof.
  intros Hd Hf Hq Hx.
  assert (Hrun : read_state self w
    = __parse_state self data
        (after_calls w e3
           (client_is_connected (pd_client d)
            :: exchange (pd_client d) [xbe; xef; x05; x01; x00; x00; x00; x00; x5a]))).
  { unfold read_state, bind.
    rewrite (verify_connected_passes self d w e0 Hd Hf Hq).
    match goal with
    | |- context [_send_command self ?c true ?w1] =>
        rewrite (send_command_answered self d c true w1 e3 data Hd Hx)
    end.
    now rewrite after_calls_twice. }
  split; [exact Hrun |]. rewrite Hrun, parse_state_run. unfold STATE_MSG_PREFIX. split.
  - intro Hm. now rewrite (proj2 (bytes_eqb_false _ _) Hm).
  - intros Hm Hlen. rewrite (proj2 (bytes_eqb_true _ _) Hm).
    now rewrite (read_fields_short data Hlen).
Qed.

(** X6. An exchange of [_send_command] ends at the first call that
    raises, and the exception is the caller's: after a refused write there
    is no delay and no read; after a failed delay no read. Nothing is
    retried, and the session is left as it was. *)
Theorem send_command_stops_at_failure (self : ref) (d : PranaDevice_obj)
    (command : bytes) (expect_reply : bool) (w : world) :
  nth_error (devices w) self = Some d ->
  let wr := client_write_gatt_char (pd_client d) CONTROL_RW_CHARACTERISTIC_UUID command true in
  let sl := asyncio_sleep SETTLE_DELAY in
  let rd := client_read_gatt_char (pd_client d) CONTROL_RW_CHARACTERISTIC_UUID false in
  (forall x e1,
     respond wr (env w) = (Raised x, e1) ->
     _send_command self command expect_reply w = (Raised x, after_calls w e1 [wr])) /\
  (forall x e1 e2,
     respond wr (env w) = (Ok tt, e1) -> respond sl e1 = (Raised x, e2) ->
     _send_command self command expect_reply w = (Raised x, after_calls w e2 [wr; sl])) /\
  (forall x e1 e2 e3,
     respond wr (env w) = (Ok tt, e1) -> respond sl e1 = (Ok tt, e2) ->
     respond rd e2 = (Raised x, e3) ->
     _send_command self command expect_reply w
     = (Raised x, after_calls w e3 [wr; sl; rd])).
Proof.
  intros Hd wr sl rd.
  pose proof (send_command_run self d command expect_reply w Hd) as Hrun.
  cbv zeta in Hrun. fold wr sl rd in Hrun. rewrite Hrun.
  split; [| split].
  - intros x e1 H1. now rewrite H1.
  - intros x e1 e2 H1 H2. now rewrite H1, H2.
  - intros x e1 e2 e3 H1 H2 H3. now rewrite H1, H2, H3.
Qed.

End SessionCommands.

Lemma control_commands_when_connected_witness :
  @PranaDevice.turn_off Simulated.transport 0%nat
     (connected_once (Simulated.quiet sample_payload))
  = (Ok tt,
     after_calls (connected_once (Simulated.quiet sample_payload))
       (env (connected_once (Simulated.quiet sample_payload)))
       (client_is_connected (client_at 0%nat session_address)
        :: exchange (client_at 0%nat session_address) [xbe; xef; x04; x01])).
Proof.
  apply (proj2 (proj2
    (control_commands_when_connected (ENV := Simulated.transport) 0%nat
       (attempted {| pd_address := session_address;
                     pd_client := client_at 0%nat session_address;
                     has_connect_attempts := false |})
       (connected_once (Simulated.quiet sample_payload))
       (env (connected_once (Simulated.quiet sample_payload)))
       eq_refl eq_refl eq_refl))
    (env (connected_once (Simulated.quiet sample_payload))) sample_payload).
  exists (env (connected_once (Simulated.quiet sample_payload))),
         (env (connected_once (Simulated.quiet sample_payload))).
  repeat split; reflexivity.
Defined.

Lemma read_state_decodes_reply_witness :
  fst (@PranaDevice.read_state Simulated.transport 0%nat
         (connected_once (Simulated.quiet [xca; xfe]))) = Ok None.
Proof.
  apply (proj1 (proj2
    (read_state_decodes_reply (ENV := Simulated.transport) 0%nat
       (attempted {| pd_address := session_address;
                     pd_client := client_at 0%nat session_address;
                     has_connect_attempts := false |})
       (connected_once (Simulated.quiet [xca; xfe]))
       (env (connected_once (Simulated.quiet [xca; xfe])))
       (env (connected_once (Simulated.quiet [xca; xfe])))
       [xca; xfe] eq_refl eq_refl eq_refl
       (ex_intro _ (env (connected_once (Simulated.quiet [xca; xfe])))
          (ex_intro _ (env (connected_once (Simulated.quiet [xca; xfe])))
             (conj eq_refl (conj eq_refl eq_refl))))))).
  discriminate.
Defined.

Lemma send_command_stops_at_failure_witness :
  @PranaDevice._send_command Countdown.transport 0%nat PranaDevice.Cmd.STOP false
     (Countdown.fresh_session 2)
  = (Raised (ExternalError "BleakError"),
     after_calls (Countdown.fresh_session 2) 0%nat
       (exchange (client_at 0%nat session_address) PranaDevice.Cmd.STOP)).
Proof.
  apply (proj2 (proj2
    (send_command_stops_at_failure (ENV := Countdown.transport) 0%nat
       {| pd_address := session_address;
          pd_client := client_at 0%nat session_address;
          has_connect_attempts := false |}
       PranaDevice.Cmd.STOP false (Countdown.fresh_session 2) eq_refl))
    (ExternalError "BleakError") 1%nat 0%nat 0%nat eq_refl eq_refl eq_refl).
Defined.

(** ** The flag and the transport's status *)

Section FlagAndStatus.
Context {ENV : Environment}.
Import PranaDevice.

(** X7. When the open returns and the subscription request raises,
    [connect] raises that exception with the flag already set and the
    link left open: no close request follows, and [is_connected] from
    then on asks the transport. *)
Theorem subscription_failure_leaves_link_open (self : ref) (d : PranaDevice_obj)
    (timeout : pynum) (w : world) (x : exn) (e1 e2 : env_state) :
  nth_error (devices w) self = Some d ->
  respond (client_connect (pd_client d) timeout) (env w) = (Ok tt, e1) ->
  respond (client_start_notify (pd_client d) CONTROL_RW_CHARACTERISTIC_UUID self) e1
    = (Raised x, e2) ->
  fst (connect self timeout w) = Raised x /\
  nth_error (devices (snd (connect self timeout w))) self = Some (attempted d) /\
  trace (snd (connect self timeout w))
    = trace w ++ [client_connect (pd_client d) timeout;
                  client_start_notify (pd_client d) CONTROL_RW_CHARACTERISTIC_UUID self] /\
  is_connected self (snd (connect self timeout w))
    = (fst (respond (client_is_connected (pd_client d)) e2),
       after_calls (snd (connect self timeout w))
         (snd (respond (client_is_connected (pd_client d)) e2))
         [client_is_connected (pd_client d)]).
Proof.
  intros Hd Ho Hs.
  assert (Hlive : nth_error (devices (snd (connect self timeout w))) self
                  = Some (attempted d)).
  { rewrite (connect_run self d timeout w Hd). cbv zeta. rewrite Ho. cbn.
    now apply nth_error_list_update_same with (x := d). }
  rewrite (is_connected_queries self (attempted d) _ Hlive eq_refl).
  rewrite (connect_run self d timeout w Hd) in *. cbv zeta in *.
  rewrite Ho, Hs in *. cbn in *. auto.
Qed.

(** X8. After a [connect] whose open was refused, a session that had
    never been connected still answers [is_connected] with [False]
    without asking the transport. *)
Theorem refused_connect_stays_unqueried (self : ref) (d : PranaDevice_obj)
    (timeout : pynum) (w : world) (x : exn) (e1 : env_state) :
  nth_error (devices w) self = Some d ->
  has_connect_attempts d = false ->
  respond (client_connect (pd_client d) timeout) (env w) = (Raised x, e1) ->
  is_connected self (snd (connect self timeout w))
  = (Ok false, snd (connect self timeout w)) /\
  trace (snd (connect self timeout w)) = trace w ++ [client_connect (pd_client d) timeout].
Proof.
  intros Hd Hf Ho.
  rewrite (connect_run self d timeout w Hd). cbv zeta. rewrite Ho. cbn [snd].
  split; [| reflexivity].
  now apply is_connected_unattempted with (d := d).
Qed.

End FlagAndStatus.

Lemma subscription_failure_leaves_link_open_witness :
  fst (@PranaDevice.connect Countdown.transport 0%nat DEVICE_CONNECT_TIMEOUT
         (Countdown.fresh_session 1)) = Raised (ExternalError "BleakError") /\
  option_map has_connect_attempts
    (nth_error (devices (snd (@PranaDevice.connect Countdown.transport 0%nat
                                DEVICE_CONNECT_TIMEOUT (Countdown.fresh_session 1)))) 0)
  = Some true.
Proof.
  destruct (subscription_failure_leaves_link_open (ENV := Countdown.transport) 0%nat
              {| pd_address := session_address;
                 pd_client := client_at 0%nat session_address;
                 has_connect_attempts := false |}
              DEVICE_CONNECT_TIMEOUT (Countdown.fresh_session 1)
              (ExternalError "BleakError") 0%nat 0%nat eq_refl eq_refl eq_refl)
    as (H1 & H2 & _).
  split; [exact H1 |]. now rewrite H2.
Defined.

Lemma refused_connect_stays_unqueried_witness :
  @PranaDevice.is_connected Simulated.transport 0%nat
     (snd (@PranaDevice.connect Simulated.transport 0%nat DEVICE_CONNECT_TIMEOUT
             (fresh_session (Simulated.refusing [0%nat] []))))
  = (Ok false,
     snd (@PranaDevice.connect Simulated.transport 0%nat DEVICE_CONNECT_TIMEOUT
            (fresh_session (Simulated.refusing [0%nat] [])))).
Proof.
  apply (refused_connect_stays_unqueried (ENV := Simulated.transport) 0%nat
           {| pd_address := session_address;
              pd_client := client_at 0%nat session_address;
              has_connect_attempts := false |}
           DEVICE_CONNECT_TIMEOUT (fresh_session (Simulated.refusing [0%nat] []))
           (ExternalError "BleakError") (Simulated.refusing [0%nat] [])
           eq_refl eq_refl eq_refl).
Defined.

(** ** Names and scans *)

Section FriendlyNames.
Import PyStr PranaDeviceManager.

Lemma replace_scan_without_occurrence (old new s : py_str) :
  (forall a b, s <> a ++ old ++ b) -> replace_scan old new s 0 = s.
Proof.
  induction s as [| c s IH]; intro Hnone; [reflexivity |].
  destruct (startswith (c :: s) old) eqn:Hst.
  - apply startswith_true in Hst. destruct Hst as [rest Hrest].
    exfalso. apply (Hnone [] rest). exact Hrest.
  - rewrite replace_scan_elsewhere by exact Hst. f_equal. apply IH.
    intros a b H. apply (Hnone (c :: a) b). cbn. now rewrite H.
Qed.

Lemma replace_nonempty (s old new : py_str) :
  old <> [] -> replace s old new = replace_scan old new s 0.
Proof. destruct old; [congruence | reflexivity]. Qed.

Lemma lstrip_all_whitespace (s : py_str) :
  Forall (fun c => is_whitespace c = true) s -> lstrip s = [].
Proof.
  induction 1 as [| c s Hc _ IH]; [reflexivity |]. cbn. now rewrite Hc.
Qed.

Lemma whitespace_has_no_prefix (s : py_str) :
  Forall (fun c => is_whitespace c = true) s ->
  forall a b, s <> a ++ PRANA_DEVICE_NAME_PREFIX ++ b.
Proof.
  intros Hws a b ->. apply Forall_app in Hws. destruct Hws as [_ Hws].
  inversion Hws as [| c l Hc _ E]. subst. discriminate Hc.
Qed.

(** X9. For a name that is the prefix followed by a rest without any
    further occurrence of the prefix, the friendly name is the rest,
    stripped; it is empty when the rest is nothing but whitespace (so
    also for the bare prefix). *)
Theorem friendly_name_of_prefixed (rest : py_str) :
  ((forall a b, rest <> a ++ PRANA_DEVICE_NAME_PREFIX ++ b) ->
   __prana_dev_name_2_name (Some (PRANA_DEVICE_NAME_PREFIX ++ rest))
   = Some (strip rest)) /\
  (Forall (fun c => is_whitespace c = true) rest ->
   __prana_dev_name_2_name (Some (PRANA_DEVICE_NAME_PREFIX ++ rest)) = Some []).
Proof.
  assert (Hone : (forall a b, rest <> a ++ PRANA_DEVICE_NAME_PREFIX ++ b) ->
                 __prana_dev_name_2_name (Some (PRANA_DEVICE_NAME_PREFIX ++ rest))
                 = Some (strip rest)).
  { intro Hnone. rewrite friendly_name_of_nonempty by discriminate.
    rewrite replace_nonempty by apply prefix_not_empty.
    rewrite replace_scan_at_occurrence by apply prefix_not_empty.
    now rewrite (replace_scan_without_occurrence _ _ rest Hnone). }
  split; [exact Hone |].
  intro Hws. rewrite (Hone (whitespace_has_no_prefix rest Hws)).
  unfold strip. now rewrite (lstrip_all_whitespace rest Hws).
Qed.

Lemma select_members (devs : list BLEDevice) (i : PranaDeviceInfo) :
  In i (select devs) <->
  exists dev, In dev devs /\
              (exists rest, dev_name dev = Some (PRANA_DEVICE_NAME_PREFIX ++ rest)) /\
              i = device_info dev.
Proof.
  unfold select. rewrite in_map_iff. split.
  - intros (dev & <- & Hin). apply filter_In in Hin. destruct Hin as [Hin Hm].
    exists dev. split; [exact Hin |]. split; [| reflexivity].
    apply is_prana_device_true in Hm. destruct Hm as (n & Hn & _ & rest & ->).
    now exists rest.
  - intros (dev & Hin & (rest & Hn) & ->). exists dev. split; [reflexivity |].
    apply filter_In. split; [exact Hin |]. apply is_prana_device_true.
    exists (PRANA_DEVICE_NAME_PREFIX ++ rest). split; [exact Hn |].
    split; [discriminate | now exists rest].
Qed.

End FriendlyNames.

Section Scans.
Context {ENV : Environment}.
Import PranaDeviceManager.

(** X10. [discover] makes one call, [bleak.discover] with the given
    timeout and the registry's loop, and changes nothing in the driver:
    no session is created or filed and nothing is printed. When the scan
    returns, the result holds exactly the identities of the advertisements
    whose name starts with the prefix, never more entries than there were
    advertisements; each has a friendly name (not [None]) and a radio name
    without whitespace at either end. When the scan raises, so does
    [discover]. *)
Theorem discover_scans_once (timeout : pynum) (w : world) :
  snd (discover timeout w)
    = after_calls w (snd (respond (bleak_discover timeout (loop (manager w))) (env w)))
        [bleak_discover timeout (loop (manager w))] /\
  (forall x e', respond (bleak_discover timeout (loop (manager w))) (env w) = (Raised x, e') ->
     fst (discover timeout w) = Raised x) /\
  (forall devs e',
     respond (bleak_discover timeout (loop (manager w))) (env w) = (Ok devs, e') ->
     exists ids,
       fst (discover timeout w) = Ok ids /\
       (length ids <= length devs)%nat /\
       (forall i, In i ids <->
          exists dev, In dev devs /\
            (exists rest, dev_name dev = Some (PRANA_DEVICE_NAME_PREFIX ++ rest)) /\
            i = device_info dev) /\
       (forall i, In i ids ->
          name i <> None /\
          no_leading_whitespace (bt_device_name i) /\
          no_trailing_whitespace (bt_device_name i))).
Proof.
  unfold discover, bind, get_manager, await, ret, after_calls.
  destruct (respond (bleak_discover timeout (loop (manager w))) (env w))
    as [[devs0 | x0] e0]; cbn [fst snd].
  - split; [reflexivity |]. split; [intros x e' H; discriminate |].
    intros devs e' H. injection H as <- <-. exists (select devs0).
    split; [reflexivity |]. split.
    { unfold select. rewrite length_map. apply filter_length_le. }
    split; [apply select_members |].
    intros i Hi. apply select_members in Hi.
    destruct Hi as (dev & _ & (rest & Hn) & ->). cbn [device_info name bt_device_name].
    split; [| split; [apply strip_no_leading | apply strip_no_trailing]].
    rewrite Hn, friendly_name_of_nonempty by discriminate. discriminate.
  - split; [reflexivity |]. split; [| intros devs e' H; discriminate].
    intros x e' H. now injection H as <- <-.
Qed.

End Scans.

Lemma friendly_name_of_prefixed_witness :
  PranaDeviceManager.__prana_dev_name_2_name
    (Some (PranaDeviceManager.PRANA_DEVICE_NAME_PREFIX ++ lit " Living Room"))
  = Some (PyStr.strip (lit " Living Room")) /\
  PranaDeviceManager.__prana_dev_name_2_name
    (Some (PranaDeviceManager.PRANA_DEVICE_NAME_PREFIX ++ lit "  "))
  = Some [].
Proof.
  split.
  - apply (proj1 (friendly_name_of_prefixed (lit " Living Room"))).
    intros a b H.
    assert (Hp : In 80%N (lit " Living Room")).
    { rewrite H. apply in_or_app. right. left. reflexivity. }
    vm_compute in Hp. intuition discriminate.
  - apply (proj2 (friendly_name_of_prefixed (lit "  "))).
    repeat constructor.
Defined.

Lemma discover_scans_once_witness :
  exists ids,
    fst (@PranaDeviceManager.discover Simulated.transport DISCOVER_TIMEOUT
           (Simulated.start
              {| Simulated.adverts := [prefix_inside; living_room];
                 Simulated.refuse_connect := []; Simulated.refuse_disconnect := [];
                 Simulated.connected := []; Simulated.subscribed := [];
                 Simulated.value := [] |})) = Ok ids /\
    (length ids <= 2)%nat.
Proof.
  destruct (proj2 (proj2
    (discover_scans_once (ENV := Simulated.transport) DISCOVER_TIMEOUT
       (Simulated.start
          {| Simulated.adverts := [prefix_inside; living_room];
             Simulated.refuse_connect := []; Simulated.refuse_disconnect := [];
             Simulated.connected := []; Simulated.subscribed := [];
             Simulated.value := [] |})))
    [prefix_inside; living_room] _ eq_refl) as (ids & H1 & H2 & _).
  exists ids. split; [exact H1 | exact H2].
Defined.

(** ** Sessions over the life of the registry *)

Create HintDb growth.

Section SessionsGrow.
Context {ENV : Environment}.

Lemma sessions_grow_refl (w : world) : sessions_grow w w.
Proof. intros r d H. exists d. auto. Qed.

Lemma sessions_grow_trans (w1 w2 w3 : world) :
  sessions_grow w1 w2 -> sessions_grow w2 w3 -> sessions_grow w1 w3.
Proof.
  intros H12 H23 r d H.
  destruct (H12 r d H) as (d2 & H2 & Ha2 & Hc2 & Hf2).
  destruct (H23 r d2 H2) as (d3 & H3 & Ha3 & Hc3 & Hf3).
  exists d3. repeat split; try congruence. auto.
Qed.

Lemma sessions_grow_same_devices (w w' : world) :
  devices w' = devices w -> sessions_grow w w'.
Proof. intros E r d H. exists d. rewrite E. auto. Qed.

Lemma grows_same_devices {A : Type} (m : M A) :
  (forall w, devices (snd (m w)) = devices w) -> grows m.
Proof. intros H w. apply sessions_grow_same_devices, H. Qed.

Lemma grows_ret {A : Type} (a : A) : grows (ret a).
Proof. now apply grows_same_devices. Qed.

Lemma grows_raise {A : Type} (e : exn) : grows (@raise ENV A e).
Proof. now apply grows_same_devices. Qed.

Lemma grows_lift {A : Type} (o : outcome A) : grows (lift o).
Proof. now apply grows_same_devices. Qed.

Lemma grows_get_manager : grows get_manager.
Proof. now apply grows_same_devices. Qed.

Lemma grows_get_devices : grows get_devices.
Proof. now apply grows_same_devices. Qed.

Lemma grows_set_manager (m : PranaDeviceManager_obj) : grows (set_manager m).
Proof. now apply grows_same_devices. Qed.

Lemma grows_print (p : printed) : grows (print p).
Proof. now apply grows_same_devices. Qed.

Lemma grows_deref (self : ref) : grows (deref self).
Proof.
  apply grows_same_devices. intro w. unfold deref.
  now destruct (nth_error (devices w) self).
Qed.

Lemma grows_await (c : call) : grows (await c).
Proof.
  apply grows_same_devices. intro w. unfold await.
  now destruct (respond c (env w)).
Qed.

Lemma grows_alloc (mk : ref -> PranaDevice_obj) : grows (alloc mk).
Proof.
  intros w r d H. exists d. cbn. split; [| auto].
  rewrite nth_error_app1; [exact H |]. apply nth_error_Some. congruence.
Qed.

(** The only assignment to the flag in the source sets it. *)
Lemma grows_set_flag (self : ref) :
  grows (PranaDevice.set_has_connect_attempts self true).
Proof.
  intro w. unfold PranaDevice.set_has_connect_attempts, bind, deref,
    get_devices, set_devices.
  destruct (nth_error (devices w) self) as [d |] eqn:Hd; cbn;
    [| apply sessions_grow_refl].
  intros r d0 H. cbn.
  destruct (Nat.eq_dec self r) as [-> | Hne].
  - rewrite (nth_error_list_update_same (devices w) r d _ Hd).
    eexists. split; [reflexivity |]. cbn. repeat split; congruence.
  - rewrite (nth_error_list_update_other (devices w) self r _ Hne).
    exists d0. auto.
Qed.

Lemma grows_bind {A B : Type} (m : M A) (f : A -> M B) :
  grows m -> (forall a, grows (f a)) -> grows (bind m f).
Proof.
  intros Hm Hf w. unfold bind. specialize (Hm w).
  destruct (m w) as [[a | e] w1]; cbn [snd] in *; [| exact Hm].
  now apply sessions_grow_trans with (w2 := w1); [| apply Hf].
Qed.

Hint Resolve grows_ret grows_raise grows_lift grows_get_manager grows_get_devices
  grows_set_manager grows_print grows_deref grows_alloc grows_set_flag : growth.

Ltac growing :=
  repeat first
    [ solve [auto with growth]
    | match goal with
      | |- grows (await ?c) => exact (grows_await c)
      end
    | apply grows_bind; [| intro]
    | match goal with
      | |- grows (if ?b then _ else _) => destruct b
      | |- grows (match ?x with _ => _ end) => destruct x
      end ].

Lemma grows_session_connect (self : ref) (timeout : pynum) :
  grows (PranaDevice.connect self timeout).
Proof. unfold PranaDevice.connect, PranaDevice.client_of. growing. Qed.

Lemma grows_session_disconnect (self : ref) : grows (PranaDevice.disconnect self).
Proof. unfold PranaDevice.disconnect, PranaDevice.client_of. growing. Qed.

Lemma grows_verify_connected (self : ref) : grows (PranaDevice.__verify_connected self).
Proof. unfold PranaDevice.__verify_connected, PranaDevice.is_connected. growing. Qed.

Lemma grows_send_command (self : ref) (command : bytes) (expect_reply : bool) :
  grows (PranaDevice._send_command self command expect_reply).
Proof. unfold PranaDevice._send_command, PranaDevice.client_of. growing. Qed.

Lemma grows_parse_state (self : ref) (data : bytes) :
  grows (PranaDevice.__parse_state self data).
Proof. unfold PranaDevice.__parse_state. growing. Qed.

Hint Resolve grows_session_connect grows_session_disconnect grows_verify_connected
  grows_send_command grows_parse_state : growth.

Lemma grows_disconnect_each (refs : list ref) :
  grows (PranaDeviceManager.disconnect_each refs).
Proof.
  induction refs as [| r refs IH]; cbn [PranaDeviceManager.disconnect_each]; growing.
Qed.

Hint Resolve grows_disconnect_each : growth.

Lemma grows_perform (o : operation) : grows (perform o).
Proof.
  destruct o; cbn [perform];
    unfold PranaDeviceManager.discover, PranaDeviceManager.connect,
      PranaDeviceManager.disconnect_all, PranaDevice.__init__,
      PranaDevice.is_connected,
      PranaDevice.set_high_speed, PranaDevice.set_night_mode,
      PranaDevice.turn_off, PranaDevice.read_state,
      PranaDevice.notification_handler;
    growing.
Qed.

(** X11. Through any run of operations a session stays where it is in
    the heap with the address and the client it was built with, and a
    flag that is set stays set: none of these operations removes a
    session, gives it another client, or clears the flag, not [disconnect]
    and not [disconnect_all]. ([test_retrieve_state], which swaps the
    client, is not one of the operations.) *)
Theorem sessions_persist (os : list operation) (w : world) (r : ref)
    (d : PranaDevice_obj) :
  nth_error (devices w) r = Some d ->
  exists d',
    nth_error (devices (perform_all os w)) r = Some d' /\
    pd_address d' = pd_address d /\
    pd_client d' = pd_client d /\
    (has_connect_attempts d = true -> has_connect_attempts d' = true).
Proof.
  revert w d. induction os as [| o os IH]; intros w d Hd; cbn [perform_all].
  - exists d. auto.
  - destruct (grows_perform o w r d Hd) as (d1 & H1 & Ha1 & Hc1 & Hf1).
    destruct (IH _ d1 H1) as (d2 & H2 & Ha2 & Hc2 & Hf2).
    exists d2. repeat split; try congruence. auto.
Qed.

End SessionsGrow.

Lemma sessions_persist_witness :
  exists d',
    nth_error
      (devices (@perform_all Simulated.transport
                  [op_session_disconnect 0%nat; op_disconnect_all;
                   op_connect (TargetStr other_address) MANAGER_CONNECT_TIMEOUT]
                  (connected_once (Simulated.quiet [])))) 0 = Some d' /\
    pd_address d' = session_address /\
    pd_client d' = client_at 0%nat session_address /\
    (true = true -> has_connect_attempts d' = true).
Proof.
  apply (sessions_persist (ENV := Simulated.transport)
           [op_session_disconnect 0%nat; op_disconnect_all;
            op_connect (TargetStr other_address) MANAGER_CONNECT_TIMEOUT]
           (connected_once (Simulated.quiet [])) 0%nat
           (attempted {| pd_address := session_address;
                         pd_client := client_at 0%nat session_address;
                         has_connect_attempts := false |})
           eq_refl).
Defined.

(** ** Filing sessions *)

Section Filing.
Context {ENV : Environment}.
Import PranaDeviceManager.

Lemma session_connect_length (self : ref) (timeout : pynum) (w : world) :
  length (devices (snd (PranaDevice.connect self timeout w))) = length (devices w).
Proof.
  destruct (nth_error (devices w) self) as [d |] eqn:Hd.
  - rewrite (connect_run self d timeout w Hd). cbv zeta.
    destruct (respond (client_connect (pd_client d) timeout) (env w)) as [[[] | x] e1];
      cbn; [apply length_list_update | reflexivity].
  - unfold PranaDevice.connect, PranaDevice.client_of, bind, deref. now rewrite Hd.
Qed.

Lemma dict_values_injective (V : Type) (d : dict V) (k1 k2 : py_str) (v : V) :
  NoDup (dict_values d) ->
  dict_get d k1 = Some v -> dict_get d k2 = Some v -> k1 = k2.
Proof.
  induction d as [| [k v0] d IH]; cbn; [discriminate |].
  intros Hnd H1 H2. inversion Hnd as [| ? ? Hnotin Hnd']; subst.
  destruct (py_str_eq_dec k1 k) as [E1 | E1], (py_str_eq_dec k2 k) as [E2 | E2].
  - congruence.
  - exfalso. apply Hnotin. injection H1 as ->. now apply dict_get_in_values with (k := k2).
  - exfalso. apply Hnotin. injection H2 as ->. now apply dict_get_in_values with (k := k1).
  - now apply IH.
Qed.

(** X12. When the registry's [connect] builds a session for a new
    address and the open is refused, [connect] raises but the session
    stays filed under the address: a later [connect] to that address
    builds no second session, and what it returns is that same session. *)
Theorem failed_connect_leaves_session_filed (tgt : target) (addr : py_str)
    (timeout : pynum) (w : world) (x : exn) (e1 : env_state) :
  __addr_for_target tgt = Ok addr ->
  dict_get (managed_devices (manager w)) addr = None ->
  respond (client_connect
             {| bc_id := length (devices w); bc_address := addr;
                bc_loop := loop (manager w); bc_device := ble_interface (manager w) |}
             timeout) (env w) = (Raised x, e1) ->
  fst (connect tgt timeout w) = Raised x /\
  dict_get (managed_devices (manager (snd (connect tgt timeout w)))) addr
    = Some (length (devices w)) /\
  length (devices (snd (connect tgt timeout w))) = S (length (devices w)) /\
  (forall timeout2,
     length (devices (snd (connect tgt timeout2 (snd (connect tgt timeout w)))))
       = S (length (devices w)) /\
     (forall r, fst (connect tgt timeout2 (snd (connect tgt timeout w))) = Ok r ->
                r = length (devices w))).
Proof.
  intros Ha Hnone Ho.
  assert (Hnew : nth_error (devices (registered w addr)) (length (devices w))
                 = Some {| pd_address := addr;
                           pd_client :=
                             {| bc_id := length (devices w); bc_address := addr;
                                bc_loop := loop (manager w);
                                bc_device := ble_interface (manager w) |};
                           has_connect_attempts := false |}).
  { cbn. rewrite nth_error_app2 by lia. now rewrite Nat.sub_diag. }
  assert (Hrun : connect tgt timeout w
                 = (Raised x, after_calls (registered w addr) e1
                      [client_connect
                         {| bc_id := length (devices w); bc_address := addr;
                            bc_loop := loop (manager w);
                            bc_device := ble_interface (manager w) |} timeout])).
  { rewrite (manager_connect_run tgt addr timeout w Ha), Hnone. unfold bind.
    rewrite (connect_run _ _ timeout (registered w addr) Hnew). cbv zeta.
    cbn [pd_client env registered]. now rewrite Ho. }
  rewrite Hrun. cbn [fst snd].
  assert (Hfiled : dict_get (managed_devices (manager (after_calls (registered w addr) e1
                      [client_connect
                         {| bc_id := length (devices w); bc_address := addr;
                            bc_loop := loop (manager w);
                            bc_device := ble_interface (manager w) |} timeout]))) addr
                   = Some (length (devices w))).
  { cbn. apply dict_get_set_same. }
  assert (Hlen : length (devices (after_calls (registered w addr) e1
                      [client_connect
                         {| bc_id := length (devices w); bc_address := addr;
                            bc_loop := loop (manager w);
                            bc_device := ble_interface (manager w) |} timeout]))
                 = S (length (devices w))).
  { cbn. rewrite length_app. cbn. lia. }
  split; [reflexivity |]. split; [exact Hfiled |]. split; [exact Hlen |].
  intro timeout2. rewrite (manager_connect_run tgt addr timeout2 _ Ha), Hfiled.
  rewrite then_ret_world, session_connect_length. split; [exact Hlen |].
  intros r Hr. now apply then_ret_result in Hr.
Qed.

(** X13. In a registry that keeps its invariant, two [connect] calls
    that resolve to different addresses and return, with any operations
    in between, return different sessions, and each session holds the
    address it was asked for. *)
Theorem different_addresses_different_sessions
    (tgt1 tgt2 : target) (addr1 addr2 : py_str) (t1 t2 : pynum)
    (between : list operation) (w : world) (r1 r2 : ref) :
  registry_ok w ->
  __addr_for_target tgt1 = Ok addr1 ->
  __addr_for_target tgt2 = Ok addr2 ->
  addr1 <> addr2 ->
  fst (connect tgt1 t1 w) = Ok r1 ->
  fst (connect tgt2 t2 (perform_all between (snd (connect tgt1 t1 w)))) = Ok r2 ->
  r1 <> r2 /\
  exists d1 d2,
    nth_error
      (devices (snd (connect tgt2 t2 (perform_all between (snd (connect tgt1 t1 w))))))
      r1 = Some d1 /\ pd_address d1 = addr1 /\
    nth_error
      (devices (snd (connect tgt2 t2 (perform_all between (snd (connect tgt1 t1 w))))))
      r2 = Some d2 /\ pd_address d2 = addr2.
Proof.
  intros Hok Ha1 Ha2 Hne H1 H2.
  destruct (manager_connect_returns tgt1 addr1 t1 w r1 Ha1 H1) as [Hf1 _].
  apply (proj1 (perform_all_kept between _)) in Hf1.
  apply (proj1 (manager_connect_kept tgt2 t2 _)) in Hf1.
  destruct (manager_connect_returns tgt2 addr2 t2 _ r2 Ha2 H2) as [Hf2 _].
  assert (Hok' : registry_ok
            (snd (connect tgt2 t2 (perform_all between (snd (connect tgt1 t1 w)))))).
  { apply manager_connect_kept, perform_all_kept, manager_connect_kept, Hok. }
  destruct Hok' as [Hk Hv Hl]. split.
  - intros ->. apply Hne.
    now apply (dict_values_injective _ _ addr1 addr2 r2 Hv).
  - destruct (Hl addr1 r1 Hf1) as (d1 & Hd1 & Hp1).
    destruct (Hl addr2 r2 Hf2) as (d2 & Hd2 & Hp2).
    exists d1, d2. auto.
Qed.

End Filing.

Lemma failed_connect_leaves_session_filed_witness :
  fst (@PranaDeviceManager.connect Simulated.transport (TargetStr session_address)
         MANAGER_CONNECT_TIMEOUT (Simulated.start (Simulated.refusing [0%nat] [])))
    = Raised (ExternalError "BleakError") /\
  dict_get (managed_devices (manager
      (snd (@PranaDeviceManager.connect Simulated.transport (TargetStr session_address)
              MANAGER_CONNECT_TIMEOUT (Simulated.start (Simulated.refusing [0%nat] []))))))
    session_address = Some 0%nat.
Proof.
  destruct (failed_connect_leaves_session_filed (ENV := Simulated.transport)
              (TargetStr session_address) session_address MANAGER_CONNECT_TIMEOUT
              (Simulated.start (Simulated.refusing [0%nat] []))
              (ExternalError "BleakError") (Simulated.refusing [0%nat] [])
              eq_refl eq_refl eq_refl) as (H1 & H2 & _).
  split; [exact H1 | exact H2].
Defined.

Lemma different_addresses_different_sessions_witness :
  fst (@PranaDeviceManager.connect Simulated.transport (TargetStr session_address)
         MANAGER_CONNECT_TIMEOUT (Simulated.start (Simulated.quiet []))) = Ok 0%nat /\
  fst (@PranaDeviceManager.connect Simulated.transport (TargetStr other_address)
         MANAGER_CONNECT_TIMEOUT
         (perform_all [op_disconnect_all]
            (snd (@PranaDeviceManager.connect Simulated.transport
                    (TargetStr session_address) MANAGER_CONNECT_TIMEOUT
                    (Simulated.start (Simulated.quiet [])))))) = Ok 1%nat /\
  0%nat <> 1%nat.
Proof.
  split; [reflexivity |]. split; [reflexivity |].
  apply (different_addresses_different_sessions (ENV := Simulated.transport)
           (TargetStr session_address) (TargetStr other_address)
           session_address other_address
           MANAGER_CONNECT_TIMEOUT MANAGER_CONNECT_TIMEOUT
           [op_disconnect_all] (Simulated.start (Simulated.quiet [])) 0%nat 1%nat).
  - split; cbn; try constructor. discriminate.
  - reflexivity.
  - reflexivity.
  - discriminate.
  - reflexivity.
  - reflexivity.
Defined.
